(** * The unlocked wallet of the account package

    A shallow embedding of
    [packages/account/src/wallet/base-wallet-unlocked.ts]: the class
    [BaseWalletUnlocked] with its getters, the two signing methods, the
    witness population and the two submission methods.

    The class talks to five things that are imported from other modules:
    the [Signer] (key holder), the transaction request with its digest and
    its witness update (the codec), the hasher, the keystore and the
    [Provider].  Each of them appears here either as an interface (a type
    class whose methods the proofs know nothing about) or, where the
    behaviour of the import is fixed by the specification, as a definition
    written after the specification and marked as such.

    The module [Scaffold] further down embeds the other source file, the
    project scaffolding tool, in the same manner. *)

From Stdlib Require Import ZArith Bool.
From stdpp Require Import base list strings.

Set Default Proof Using "Type".
Local Open Scope string_scope.
Local Open Scope list_scope.

(** ** Values *)

(** Hex strings, as the TypeScript code has them. *)
Definition Address := string.
Definition PrivateKey := string.
Definition PublicKey := string.
Definition Digest := string.
Definition Signature := string.
Definition Witness := string.

(** The error taxonomy.  [MissingProvider] is what the [provider]
    accessor of [Account] raises for a wallet built without a provider,
    [InvalidTransactionType] is the rejection of a plain object by
    [transactionRequestify], [DanglingReference] is an artefact of the
    store (a reference that was never allocated; JavaScript has none). *)
Inductive Error : Type :=
| InvalidKeyError
| InvalidInputError
| UnknownOwnerError
| CollaboratorError (what : string)
| MissingProvider
| InvalidTransactionType
| DanglingReference.

Inductive result (A : Type) : Type :=
| Ok (a : A)
| Err (e : Error).
Arguments Ok {A} a.
Arguments Err {A} e.

Definition is_ok {A} (r : result A) : bool :=
  match r with Ok _ => true | Err _ => false end.

(** ** Transaction requests *)

(** Modelled from the spec: the transaction request class is imported from
    [../providers]; its source lies outside this development.  Section 3
    gives it an ordered sequence of inputs, each optionally referencing an
    owner, an ordered sequence of outputs, chain-scoped metadata and a
    witness list; sections 4.2 and 9 associate a witness slot with each
    input. *)
Record Input : Type := mkInput {
  owner : option Address;
  witnessIndex : nat;
  inputBody : string
}.

Record TransactionRequest : Type := mkTransactionRequest {
  inputs : list Input;
  outputs : list string;
  metadata : string;
  witnesses : list Witness
}.

Definition set_witnesses (ws : list Witness) (tx : TransactionRequest)
  : TransactionRequest :=
  {| inputs := inputs tx; outputs := outputs tx; metadata := metadata tx;
     witnesses := ws |}.

(** The empty placeholder that pads the witness list. *)
Definition emptyWitness : Witness := "0x".

Definition ownedBy (a : Address) (i : Input) : bool :=
  match owner i with
  | Some o => String.eqb o a
  | None => false
  end.

(** Modelled from the spec: [resolveWitnessIndex] of section 4.2, a
    method of the imported request class.  It scans the inputs in order
    and returns the witness slot of the first input owned by [a], none if
    there is no such input. *)
Definition resolveWitnessIndex (tx : TransactionRequest) (a : Address)
  : option nat :=
  witnessIndex <$> List.find (ownedBy a) (inputs tx).

(** Writing slot [i]: overwrite it when it exists, otherwise grow the
    list up to [i], padding the slots in between with the placeholder. *)
Fixpoint writeSlot (ws : list Witness) (i : nat) (s : Witness)
  : list Witness :=
  match i, ws with
  | O, [] => [s]
  | O, _ :: rest => s :: rest
  | S j, [] => emptyWitness :: writeSlot [] j s
  | S j, w :: rest => w :: writeSlot rest j s
  end.

(** Modelled from the spec: [setWitnessAtOwner] of section 4.2, which the
    source calls [updateWitnessByOwner], a method of the imported request
    class.  It resolves the owner's slot and writes the signature there,
    and fails with [UnknownOwnerError] when the owner controls no input. *)
Definition setWitnessAtOwner (tx : TransactionRequest) (a : Address)
    (s : Signature) : result TransactionRequest :=
  match resolveWitnessIndex tx a with
  | Some i => Ok (set_witnesses (writeSlot (witnesses tx) i s) tx)
  | None => Err UnknownOwnerError
  end.

(** ** Option records of the provider *)

(** [ProviderSendTxParams], [EstimateTransactionParams] and
    [ProviderCallParams]: every field is optional in the source, an absent
    field is [None]. *)
Record ProviderSendTxParams : Type := mkSendParams {
  send_estimateTxDependencies : option bool;
  send_awaitExecution : option bool
}.

Record EstimateTransactionParams : Type := mkEstimateParams {
  est_estimateTxDependencies : option bool
}.

Record ProviderCallParams : Type := mkCallParams {
  call_utxoValidation : option bool;
  call_estimateTxDependencies : option bool
}.

(** The default argument [= {}]. *)
Definition noSendParams : ProviderSendTxParams := mkSendParams None None.
Definition noEstimateParams : EstimateTransactionParams := mkEstimateParams None.

(** Destructuring with the default [estimateTxDependencies = true]. *)
Definition orTrue (o : option bool) : bool :=
  match o with
  | Some b => b
  | None => true
  end.

(** ** The imported interfaces *)

(** [hashMessage] of [@fuel-ts/hasher]. *)
Class Hasher : Type := {
  hashMessage : string -> Digest
}.

(** The transaction codec.  [request_from] is the conversion of a plain
    object (given here by its text) that [transactionRequestify] performs;
    [hashSignable] is the canonical hash behind [getTransactionId]. *)
Class Codec : Type := {
  request_from : string -> result TransactionRequest;
  hashSignable : list Input -> list string -> string -> Z -> Digest
}.

(** The signature scheme behind [Signer]. *)
Class KeyScheme : Type := {
  valid_key : PrivateKey -> bool;
  derivePublicKey : PrivateKey -> PublicKey;
  deriveAddress : PublicKey -> Address;
  sign_digest : PrivateKey -> Digest -> result Signature
}.

(** [encryptKeystoreWallet] of [./keystore-wallet]. *)
Class Keystore : Type := {
  encryptKeystoreWallet : PrivateKey -> Address -> string -> result string
}.

(** The [Provider]: [P] is its internal state (connection, caches, the
    chain behind it).  The chain is read from a cache without changing
    the provider; the three network calls may change the provider and the
    transaction request they are handed. *)
Class Network (P TransactionResponse CallResult : Type) : Type := {
  provider_getChainId : P -> result Z;
  provider_estimateTxDependencies :
    TransactionRequest -> P -> result unit * TransactionRequest * P;
  provider_sendTransaction :
    TransactionRequest -> ProviderSendTxParams -> P ->
    result TransactionResponse * TransactionRequest * P;
  provider_call :
    TransactionRequest -> ProviderCallParams -> P ->
    result CallResult * TransactionRequest * P
}.

(** Modelled from the spec: [getTransactionId], a method of the imported
    request class.  Section 4.2 has the digest computed over the signable
    fields, that is all fields except the contents of the witness list,
    together with the chain id. *)
Definition getTransactionId `{Codec} (tx : TransactionRequest) (chainId : Z)
  : Digest :=
  hashSignable (inputs tx) (outputs tx) (metadata tx) chainId.

(** ** The signer *)

(** Modelled from the spec: the [Signer] class is imported from
    [../signer]; its source lies outside this development.  Section 4.1
    has the key holder store the private key it was built from, derive
    the public key from the private key and the address from the public
    key, and reject key material outside the valid range. *)
Record Signer : Type := mkSigner {
  signer_privateKey : PrivateKey;
  signer_publicKey : PublicKey;
  signer_address : Address
}.

Definition new_Signer `{KeyScheme} (privateKey : PrivateKey) : result Signer :=
  if valid_key privateKey
  then Ok {| signer_privateKey := privateKey;
             signer_publicKey := derivePublicKey privateKey;
             signer_address := deriveAddress (derivePublicKey privateKey) |}
  else Err InvalidKeyError.

Definition Signer_sign `{KeyScheme} (s : Signer) (d : Digest) : result Signature :=
  sign_digest (signer_privateKey s) d.

(** ** The wallet object *)

(** A handle on the provider; the provider's state lives in the world. *)
Inductive Provider : Type := theProvider.

(** [signer] is the field [signer: () => Signer], a thunk that returns the
    signer made by the constructor; [address] and [_provider] are what the
    constructor hands to [Account]. *)
Record BaseWalletUnlocked : Type := mkWallet {
  signer : Signer;
  address : Address;
  _provider : option Provider
}.

(** [constructor(privateKey, provider?)]. *)
Definition new_BaseWalletUnlocked `{KeyScheme}
    (privateKey : PrivateKey) (provider : option Provider)
  : result BaseWalletUnlocked :=
  match new_Signer privateKey with
  | Ok signer0 =>
      Ok {| signer := signer0; address := signer_address signer0;
            _provider := provider |}
  | Err e => Err e
  end.

(** [get privateKey()]. *)
Definition privateKey (this : BaseWalletUnlocked) : string :=
  signer_privateKey (signer this).

(** [get publicKey()]. *)
Definition publicKey (this : BaseWalletUnlocked) : string :=
  signer_publicKey (signer this).

(** ** The world: store, provider and the log of calls *)

(** Transaction requests are mutable objects that the wallet, its caller
    and the provider share; a reference is an index into the store. *)
Definition ref := nat.

(** What a caller may pass as [TransactionRequestLike]: a transaction
    request object, or a plain object (by its text). *)
Inductive TransactionRequestLike : Type :=
| LikeRequest (r : ref)
| LikePlain (text : string).

(** One entry per call that a method makes on the provider, the signer,
    the codec's witness update or the keystore. *)
Inductive Event : Type :=
| EvEstimateTxDependencies (r : ref)
| EvGetChain
| EvSign (d : Digest)
| EvUpdateWitnessByOwner (r : ref) (a : Address) (s : Signature)
| EvSendTransaction (r : ref) (params : ProviderSendTxParams)
| EvCall (r : ref) (params : ProviderCallParams)
| EvEncryptKeystoreWallet (k : PrivateKey) (a : Address) (password : string).

Record World (P : Type) : Type := mkWorld {
  heap : list TransactionRequest;
  provider : P;
  trace : list Event
}.
Arguments mkWorld {P} heap provider trace.
Arguments heap {P} w.
Arguments provider {P} w.
Arguments trace {P} w.

(** ** The monad of methods: state that survives an exception *)

Definition M (P A : Type) : Type := World P -> result A * World P.

Definition ret {P A} (a : A) : M P A := fun w => (Ok a, w).

Definition throw {P A} (e : Error) : M P A := fun w => (Err e, w).

Definition bind {P A B} (m : M P A) (k : A -> M P B) : M P B :=
  fun w =>
    match m w with
    | (Ok a, w') => k a w'
    | (Err e, w') => (Err e, w')
    end.

Declare Scope method_scope.
Delimit Scope method_scope with method.
Notation "x <- m ;; k" := (bind m (fun x => k))
  (at level 100, m at next level, right associativity) : method_scope.
Notation "m ;;; k" := (bind m (fun _ => k))
  (at level 100, right associativity) : method_scope.
Local Open Scope method_scope.

Definition lift {P A} (r : result A) : M P A := fun w => (r, w).

Definition emit {P} (ev : Event) : M P unit :=
  fun w => (Ok tt, mkWorld (heap w) (provider w) (trace w ++ [ev])).

Definition read {P} (r : ref) : M P TransactionRequest :=
  fun w =>
    match heap w !! r with
    | Some tx => (Ok tx, w)
    | None => (Err DanglingReference, w)
    end.

Definition alloc {P} (tx : TransactionRequest) : M P ref :=
  fun w => (Ok (length (heap w)),
            mkWorld (heap w ++ [tx]) (provider w) (trace w)).

(** A call on the object behind [r]: the callee sees the object and the
    provider's state, and may change both, also when it fails. *)
Definition onRequest {P A}
    (f : TransactionRequest -> P -> result A * TransactionRequest * P)
    (r : ref) : M P A :=
  fun w =>
    match heap w !! r with
    | Some tx =>
        let '(res, tx', p') := f tx (provider w) in
        (res, mkWorld (<[r := tx']> (heap w)) p' (trace w))
    | None => (Err DanglingReference, w)
    end.

(** The world [w] with [evs] appended to its log and nothing else
    changed. *)
Definition logged {P} (w : World P) (evs : list Event) : World P :=
  mkWorld (heap w) (provider w) (trace w ++ evs).

Section Wallet.

Context {P TransactionResponse CallResult : Type}.
Context `{!Network P TransactionResponse CallResult}.
Context `{!Hasher} `{!Codec} `{!KeyScheme} `{!Keystore}.

Local Abbreviation Method := (M P).

(** *** The imports, as methods *)

(** [transactionRequestify], imported from [../providers]: a transaction
    request object is returned as it is, a plain object is turned into a
    new request object or rejected.  The methods below rely on the first:
    [sendTransaction] populates the very object it had estimated. *)
Definition transactionRequestify (like : TransactionRequestLike) : Method ref :=
  match like with
  | LikeRequest r => ret r
  | LikePlain text => tx <- lift (request_from text) ;; alloc tx
  end.

(** [this.provider], the accessor inherited from [Account]: the provider
    given to the constructor, an error when none was given. *)
Definition get_provider (this : BaseWalletUnlocked) : Method Provider :=
  match _provider this with
  | Some p => ret p
  | None => throw MissingProvider
  end.

(** [provider.getChain().consensusParameters.chainId.toNumber()]. *)
Definition getChainId (_ : Provider) : Method Z :=
  emit EvGetChain ;;;
  fun w => (provider_getChainId (provider w), w).

(** [provider.estimateTxDependencies(transactionRequest)]. *)
Definition estimateTxDependencies (_ : Provider) (r : ref) : Method unit :=
  emit (EvEstimateTxDependencies r) ;;;
  onRequest provider_estimateTxDependencies r.

(** [provider.sendTransaction(transactionRequest, params)]. *)
Definition Provider_sendTransaction (_ : Provider) (r : ref)
    (params : ProviderSendTxParams) : Method TransactionResponse :=
  emit (EvSendTransaction r params) ;;;
  onRequest (fun tx => provider_sendTransaction tx params) r.

(** [provider.call(transactionRequest, params)]. *)
Definition Provider_call (_ : Provider) (r : ref)
    (params : ProviderCallParams) : Method CallResult :=
  emit (EvCall r params) ;;;
  onRequest (fun tx => provider_call tx params) r.

(** [this.signer().sign(digest)]. *)
Definition sign (this : BaseWalletUnlocked) (d : Digest) : Method Signature :=
  emit (EvSign d) ;;;
  lift (Signer_sign (signer this) d).

(** [transactionRequest.updateWitnessByOwner(address, signature)]: the
    witness update of the codec, in place on the object behind [r]. *)
Definition updateWitnessByOwner (r : ref) (a : Address) (s : Signature)
  : Method unit :=
  emit (EvUpdateWitnessByOwner r a s) ;;;
  onRequest (fun tx p =>
               match setWitnessAtOwner tx a s with
               | Ok tx' => (Ok tt, tx', p)
               | Err e => (Err e, tx, p)
               end) r.

(** *** The methods of the class *)

(** [signMessage(message)]. *)
Definition signMessage (this : BaseWalletUnlocked) (message : string)
  : Method Signature :=
  signedMessage <- sign this (hashMessage message) ;;
  ret signedMessage.

(** [signTransaction(transactionRequestLike)]. *)
Definition signTransaction (this : BaseWalletUnlocked)
    (transactionRequestLike : TransactionRequestLike) : Method Signature :=
  transactionRequest <- transactionRequestify transactionRequestLike ;;
  provider0 <- get_provider this ;;
  chainId <- getChainId provider0 ;;
  tx <- read transactionRequest ;;
  let hashedTransaction := getTransactionId tx chainId in
  signature <- sign this hashedTransaction ;;
  ret signature.

(** [populateTransactionWitnessesSignature(transactionRequestLike)]. *)
Definition populateTransactionWitnessesSignature (this : BaseWalletUnlocked)
    (transactionRequestLike : TransactionRequestLike) : Method ref :=
  transactionRequest <- transactionRequestify transactionRequestLike ;;
  signedTransaction <- signTransaction this (LikeRequest transactionRequest) ;;
  updateWitnessByOwner transactionRequest (address this) signedTransaction ;;;
  ret transactionRequest.

(** [sendTransaction(transactionRequestLike, params = {})].  The receiver
    [this.provider] of the last call is evaluated before its argument. *)
Definition sendTransaction (this : BaseWalletUnlocked)
    (transactionRequestLike : TransactionRequestLike)
    (params : ProviderSendTxParams) : Method TransactionResponse :=
  let estimateTxDependencies0 := orTrue (send_estimateTxDependencies params) in
  let awaitExecution := send_awaitExecution params in
  transactionRequest <- transactionRequestify transactionRequestLike ;;
  (if estimateTxDependencies0
   then provider0 <- get_provider this ;;
        estimateTxDependencies provider0 transactionRequest
   else ret tt) ;;;
  provider0 <- get_provider this ;;
  populated <- populateTransactionWitnessesSignature this
                 (LikeRequest transactionRequest) ;;
  Provider_sendTransaction provider0 populated
    {| send_awaitExecution := awaitExecution;
       send_estimateTxDependencies := Some false |}.

(** [simulateTransaction(transactionRequestLike, params = {})]. *)
Definition simulateTransaction (this : BaseWalletUnlocked)
    (transactionRequestLike : TransactionRequestLike)
    (params : EstimateTransactionParams) : Method CallResult :=
  let estimateTxDependencies0 := orTrue (est_estimateTxDependencies params) in
  transactionRequest <- transactionRequestify transactionRequestLike ;;
  (if estimateTxDependencies0
   then provider0 <- get_provider this ;;
        estimateTxDependencies provider0 transactionRequest
   else ret tt) ;;;
  provider0 <- get_provider this ;;
  populated <- populateTransactionWitnessesSignature this
                 (LikeRequest transactionRequest) ;;
  Provider_call provider0 populated
    {| call_utxoValidation := Some true;
       call_estimateTxDependencies := Some false |}.

(** [encrypt(password)]. *)
Definition encrypt (this : BaseWalletUnlocked) (password : string)
  : Method string :=
  emit (EvEncryptKeystoreWallet (privateKey this) (address this) password) ;;;
  lift (encryptKeystoreWallet (privateKey this) (address this) password).

(** Two wallets that look the same from outside: same address, same
    provider, and signers that give the same signature on every digest. *)
Definition sameSigner (this that : BaseWalletUnlocked) : Prop :=
  address this = address that /\
  _provider this = _provider that /\
  forall d, Signer_sign (signer this) d = Signer_sign (signer that) d.

End Wallet.

(** ** The state machine of a submission attempt *)

(** [Unsigned -> DependenciesEstimated (optional) -> Witnessed ->
    Submitted | Simulated].  Chain retrieval and signing belong to the
    witness population and leave the phase as it is; they are not allowed
    once the witness is in place. *)
Inductive Phase : Type :=
| Unsigned
| DependenciesEstimated
| Witnessed
| Submitted
| Simulated.

Definition advance (ph : Phase) (ev : Event) : option Phase :=
  match ev, ph with
  | EvEstimateTxDependencies _, Unsigned => Some DependenciesEstimated
  | EvGetChain, (Unsigned | DependenciesEstimated) => Some ph
  | EvSign _, (Unsigned | DependenciesEstimated) => Some ph
  | EvUpdateWitnessByOwner _ _ _, (Unsigned | DependenciesEstimated) =>
      Some Witnessed
  | EvSendTransaction _ _, Witnessed => Some Submitted
  | EvCall _ _, Witnessed => Some Simulated
  | _, _ => None
  end.

Fixpoint follow (ph : Phase) (evs : list Event) : option Phase :=
  match evs with
  | [] => Some ph
  | ev :: rest =>
      match advance ph ev with
      | Some ph' => follow ph' rest
      | None => None
      end
  end.

Definition isEstimate (ev : Event) : bool :=
  match ev with EvEstimateTxDependencies _ => true | _ => false end.

Definition isWitness (ev : Event) : bool :=
  match ev with EvUpdateWitnessByOwner _ _ _ => true | _ => false end.

(** Is there a dependency estimation somewhere after a witness update? *)
Fixpoint estimateAfterWitness (evs : list Event) : bool :=
  match evs with
  | [] => false
  | ev :: rest =>
      (isWitness ev && existsb isEstimate rest) || estimateAfterWitness rest
  end.

(** The calls of one complete submission, in order. *)
Definition submission (estimate : bool) (r : ref) (a : Address) (d : Digest)
    (s : Signature) (last : Event) : list Event :=
  (if estimate then [EvEstimateTxDependencies r] else []) ++
  [EvGetChain; EvSign d; EvUpdateWitnessByOwner r a s] ++ [last].

(** The provider-side events of a trace. *)
Definition isProviderEvent (ev : Event) : bool :=
  match ev with
  | EvEstimateTxDependencies _ | EvGetChain
  | EvSendTransaction _ _ | EvCall _ _ => true
  | _ => false
  end.

(** ** A small instance of the imports *)

(** Concrete stand-ins for the imported interfaces, used to run the
    methods on explicit inputs.  The provider state counts the network
    calls made; the chain id is 7. *)
Module Toy.

#[export] Instance hasher : Hasher :=
  {| hashMessage := fun m => "msg:" +:+ m |}.

#[export] Instance codec : Codec :=
  {| request_from := fun text =>
       if String.eqb text ""
       then Err InvalidTransactionType
       else Ok (mkTransactionRequest [] [] text []);
     hashSignable := fun _ _ meta _ => "tx:" +:+ meta |}.

#[export] Instance scheme : KeyScheme :=
  {| valid_key := fun k => negb (String.eqb k "");
     derivePublicKey := fun k => "pub:" +:+ k;
     deriveAddress := fun pk => "addr:" +:+ pk;
     sign_digest := fun k d => Ok ("sig:" +:+ k +:+ ":" +:+ d) |}.

#[export] Instance keystore : Keystore :=
  {| encryptKeystoreWallet := fun k a password => Ok ("enc:" +:+ k) |}.

#[export] Instance network : Network nat string string :=
  {| provider_getChainId := fun _ => Ok 7%Z;
     provider_estimateTxDependencies := fun tx p => (Ok tt, tx, S p);
     provider_sendTransaction := fun tx _ p => (Ok "response", tx, S p);
     provider_call := fun tx _ p => (Ok "result", tx, S p) |}.

Definition key : PrivateKey := "k1".
Definition signer1 : Signer := mkSigner "k1" "pub:k1" "addr:pub:k1".
Definition wallet : BaseWalletUnlocked :=
  mkWallet signer1 "addr:pub:k1" (Some theProvider).
Definition offline : BaseWalletUnlocked :=
  mkWallet signer1 "addr:pub:k1" None.

(** One input owned by the wallet, slot 0, no witness yet. *)
Definition owned : TransactionRequest :=
  mkTransactionRequest [mkInput (Some "addr:pub:k1") 0 "coin"] [] "meta" [].

(** No input owned by the wallet. *)
Definition foreign : TransactionRequest :=
  mkTransactionRequest [mkInput (Some "addr:other") 0 "coin"] [] "meta" [].

Definition world (tx : TransactionRequest) : World nat := mkWorld [tx] 0 [].

End Toy.

(** * The project scaffolding tool

    The second source file: the command line tool that copies the
    [nextjs] template into a new project directory and trims it to the
    Sway programs the user asked for.  The file system, the terminal
    prompts, the TOML library, [path.join] and [chalk] are imports and
    appear as interfaces. *)
Module Scaffold.

(** The programs a template holds: the union type
    ['predicate' | 'contract' | 'script'] of the workspace members. *)
Inductive Program : Type := Contract | Predicate | Script.

Definition programName (m : Program) : string :=
  match m with
  | Contract => "contract"
  | Predicate => "predicate"
  | Script => "script"
  end.

(** [type ProgramsToInclude].  [ownKeys] is the order in which the keys of
    the object were created, which is what [Object.entries] follows. *)
Record ProgramsToInclude : Type := mkPrograms {
  contract : bool;
  predicate : bool;
  script : bool;
  ownKeys : list Program
}.

(** [programsToInclude[m]]. *)
Definition included (o : ProgramsToInclude) (m : Program) : bool :=
  match m with
  | Contract => contract o
  | Predicate => predicate o
  | Script => script o
  end.

(** [Object.entries(programsToInclude)]. *)
Definition entries (o : ProgramsToInclude) : list (string * bool) :=
  map (fun m => (programName m, included o m)) (ownKeys o).

(** The properties that every object inherits from [Object.prototype].
    Each holds a function, or for [__proto__] the prototype itself. *)
Definition objectPrototypeKeys : list string :=
  ["constructor"; "__defineGetter__"; "__defineSetter__"; "hasOwnProperty";
   "__lookupGetter__"; "__lookupSetter__"; "isPrototypeOf";
   "propertyIsEnumerable"; "toString"; "valueOf"; "__proto__";
   "toLocaleString"].

(** [programsToInclude[key]] taken as a condition, for any key: an own
    key holds its boolean, an inherited key holds something truthy, and
    under any other key there is [undefined]. *)
Definition holds (o : ProgramsToInclude) (key : string) : bool :=
  if String.eqb key "contract" then contract o
  else if String.eqb key "predicate" then predicate o
  else if String.eqb key "script" then script o
  else existsb (String.eqb key) objectPrototypeKeys.

(** What the tool throws.  [JsError] is a [throw new Error(message)] of the
    tool itself, [TypeError] a property read on [undefined], [HostError]
    whatever an import raised. *)
Inductive Exception : Type :=
| JsError (message : string)
| TypeError
| HostError (what : string).

Inductive outcome (A : Type) : Type :=
| Done (a : A)
| Raised (e : Exception).
Arguments Done {A} a.
Arguments Raised {A} e.

(** *** Strings as JavaScript builds them *)

Definition newline : string := String (Ascii.ascii_of_nat 10) "".

(** [String.prototype.toUpperCase], on ASCII text. *)
Definition upper (c : Ascii.ascii) : Ascii.ascii :=
  let n := Ascii.nat_of_ascii c in
  if (97 <=? n)%nat && (n <=? 122)%nat then Ascii.ascii_of_nat (n - 32) else c.

Fixpoint toUpperCase (s : string) : string :=
  match s with
  | EmptyString => EmptyString
  | String c rest => String (upper c) (toUpperCase rest)
  end.

(** A boolean inside a template literal. *)
Definition showBool (b : bool) : string := if b then "true" else "false".

(** A possibly undefined string inside a template literal. *)
Definition show (s : option string) : string :=
  match s with
  | Some text => text
  | None => "undefined"
  end.

(** Truthiness of a possibly undefined string: [undefined] and the empty
    string are falsy. *)
Definition truthy (s : option string) : bool :=
  match s with
  | Some text => negb (String.eqb text "")
  | None => false
  end.

(** *** The imports *)

(** A value of a parsed TOML document.  A number, a boolean or a date is
    kept as the string that JavaScript converts it to, which is all that
    [processWorkspaceToml] can observe of it. *)
#[warnings="-register-all"] Inductive Value : Type :=
| VString (text : string)
| VScalar (shown : string)
| VArray (items : list Value)
| VTable (fields : list (string * Value)).

(** The own property [key] of a table. *)
Fixpoint getOwn (key : string) (fields : list (string * Value))
  : option Value :=
  match fields with
  | [] => None
  | (k, v) :: others =>
      if String.eqb k key then Some v else getOwn key others
  end.

(** Assignment to the property [key] of a table: an own property keeps
    its place, a new one goes last. *)
Fixpoint setOwn (key : string) (v : Value) (fields : list (string * Value))
  : list (string * Value) :=
  match fields with
  | [] => [(key, v)]
  | (k, old) :: others =>
      if String.eqb k key then (k, v) :: others
      else (k, old) :: setOwn key v others
  end.

(** [value.key] for the keys [workspace] and [members], [None] being
    [undefined]: a table has the property when it is its own, and no
    prototype of a table, an array, a string, a number, a boolean or a
    date has a property of either name. *)
Definition property (key : string) (v : Value) : option Value :=
  match v with
  | VTable fields => getOwn key fields
  | _ => None
  end.

(** The property key that a value stands for in [object[value]]: a
    string is itself; an array is its elements joined by commas
    ([Array.prototype.toString]); a table is [[object Object]], unless a
    key [toString] of its own hides [Object.prototype.toString], and then
    the conversion is a type error ([None]). *)
Fixpoint toPropertyKey (v : Value) : option string :=
  match v with
  | VString text => Some text
  | VScalar shown => Some shown
  | VArray items =>
      String.concat "," <$>
      (fix each (items : list Value) : option (list string) :=
         match items with
         | [] => Some []
         | item :: others =>
             match toPropertyKey item, each others with
             | Some key, Some keys => Some (key :: keys)
             | _, _ => None
             end
         end) items
  | VTable fields =>
      match getOwn "toString" fields with
      | Some _ => None
      | None => Some "[object Object]"
      end
  end.

(** [@iarna/toml], whose tables are plain objects.  A failure carries
    the text of what was raised. *)
Class Toml : Type := {
  toml_parse : string -> string + Value;
  toml_stringify : Value -> string + string
}.

(** What an import gave, or its failure raised. *)
Definition imported {A} (r : string + A) : outcome A :=
  match r with
  | inr a => Done a
  | inl what => Raised (HostError what)
  end.

(** The calls that change the host: file system, working directory,
    child processes. *)
Inductive Call : Type :=
| Mkdir (path : string)
| Cp (source destination : string) (recursive : bool)
| Rename (oldPath newPath : string)
| WriteFileSync (path data : string)
| RmSync (path : string) (recursive : bool)
| Chdir (directory : string)
| ExecSync (command : string).

(** [fs], [fs/promises], [child_process], [process.chdir], [path] and
    [__dirname] over a host state [F].  A failing call carries the text of
    what was raised and may have changed the host all the same. *)
Class Node (F : Type) : Type := {
  existsSync : string -> F -> bool;
  readFileSync : string -> F -> string + string;
  perform : Call -> F -> option string * F;
  join : list string -> string;
  dirname : string
}.

(** [prompts] over a terminal state [C]: the answer under the question's
    name, [None] when the answer object has no such key. *)
Class Terminal (C : Type) : Type := {
  prompts_text : string -> string -> C -> option string * C;
  prompts_select : string -> list (string * string) -> C -> option string * C;
  prompts_multiselect :
    string -> list (string * string * bool) -> C -> option (list string) * C
}.

(** [chalk.green]. *)
Class Chalk : Type := {
  green : string -> string
}.

(** *** The host and the monad of the tool *)

(** The state of the host: the disk, the terminal of the prompts, what
    [log] has written to the standard output, and the changing calls made
    so far.  What a child process writes to the streams it inherits is
    not part of [stdout]. *)
Record Host (F C : Type) : Type := mkHost {
  disk : F;
  terminal : C;
  stdout : list string;
  calls : list Call
}.
Arguments mkHost {F C} disk terminal stdout calls.
Arguments disk {F C} h.
Arguments terminal {F C} h.
Arguments stdout {F C} h.
Arguments calls {F C} h.

Definition IO (F C A : Type) : Type := Host F C -> outcome A * Host F C.

Definition pure {F C A} (a : A) : IO F C A := fun h => (Done a, h).

Definition raise {F C A} (e : Exception) : IO F C A := fun h => (Raised e, h).

Definition andThen {F C A B} (m : IO F C A) (k : A -> IO F C B) : IO F C B :=
  fun h =>
    match m h with
    | (Done a, h') => k a h'
    | (Raised e, h') => (Raised e, h')
    end.

Declare Scope io_scope.
Delimit Scope io_scope with io.
Notation "x <- m ;; k" := (andThen m (fun x => k))
  (at level 100, m at next level, right associativity) : io_scope.
Notation "m ;;; k" := (andThen m (fun _ => k))
  (at level 100, right associativity) : io_scope.
Local Open Scope io_scope.

Section Tool.

Context {F C : Type}.
Context `{!Node F} `{!Terminal C} `{!Toml} `{!Chalk}.

Local Abbreviation Task := (IO F C).

(** One changing call on the host, logged whether it succeeds or not. *)
Definition call (c : Call) : Task unit :=
  fun h =>
    let '(failure, disk') := perform c (disk h) in
    (match failure with
     | None => Done tt
     | Some what => Raised (HostError what)
     end,
     mkHost disk' (terminal h) (stdout h) (calls h ++ [c])).

(** [existsSync(path)]; it answers [false] on [undefined]. *)
Definition exists_ (path : option string) : Task bool :=
  fun h =>
    (Done match path with
          | Some text => existsSync text (disk h)
          | None => false
          end, h).

(** [readFileSync(path, 'utf-8')]. *)
Definition readFile (path : string) : Task string :=
  fun h =>
    (match readFileSync path (disk h) with
     | inr text => Done text
     | inl what => Raised (HostError what)
     end, h).

(** [log(...data)]: the data joined by blanks, and a newline. *)
Definition log (data : list string) : Task unit :=
  fun h =>
    (Done tt,
     mkHost (disk h) (terminal h)
       (stdout h ++ [String.concat " " data +:+ newline]) (calls h)).

(** [members.filter((m) => programsToInclude[m])]: the members in their
    order, each one kept when the property it names is truthy.  A member
    that cannot be turned into a key is a type error ([None]). *)
Fixpoint filterMembers (programsToInclude : ProgramsToInclude)
    (items : list Value) : option (list Value) :=
  match items with
  | [] => Some []
  | m :: others =>
      match toPropertyKey m, filterMembers programsToInclude others with
      | Some key, Some kept =>
          Some (if holds programsToInclude key then m :: kept else kept)
      | _, _ => None
      end
  end.

(** [parsed.workspace.members = kept], on a document that has the
    table. *)
Definition withMembers (parsed : Value) (kept : list Value) : Value :=
  match parsed with
  | VTable fields =>
      match getOwn "workspace" fields with
      | Some (VTable workspace) =>
          VTable (setOwn "workspace"
                    (VTable (setOwn "members" (VArray kept) workspace))
                    fields)
      | _ => parsed
      end
  | _ => parsed
  end.

(** [processWorkspaceToml(fileContents, programsToInclude)].  The type
    assertion on the parsed document checks nothing: reading [members]
    off a missing [workspace], or [filter] off anything but an array, is
    a type error. *)
Definition processWorkspaceToml (fileContents : string)
    (programsToInclude : ProgramsToInclude) : outcome string :=
  match imported (toml_parse fileContents) with
  | Raised e => Raised e
  | Done parsed =>
      match property "workspace" parsed ≫= property "members" with
      | Some (VArray items) =>
          match filterMembers programsToInclude items with
          | Some kept => imported (toml_stringify (withMembers parsed kept))
          | None => Raised TypeError
          end
      | _ => Raised TypeError
      end
  end.

(** A computation that does not touch the host. *)
Definition evaluate {A} (r : outcome A) : Task A := fun h => (r, h).

(** [promptForProjectPath()]. *)
Definition promptForProjectPath : Task (option string) :=
  fun h =>
    let '(projectName, c) :=
      prompts_text "What is the name of your project?" "my-fuel-project"
        (terminal h) in
    (Done projectName, mkHost (disk h) c (stdout h) (calls h)).

(** [promptForPackageManager()]. *)
Definition promptForPackageManager : Task (option string) :=
  fun h =>
    let '(packageManager, c) :=
      prompts_select "Select a package manager"
        [("pnpm", "pnpm"); ("npm", "npm")] (terminal h) in
    (Done packageManager, mkHost (disk h) c (stdout h) (calls h)).

(** [array.includes(name)]. *)
Definition includes (selected : list string) (name : string) : bool :=
  existsb (String.eqb name) selected.

(** The object that [promptForProgramsToInclude] builds from the selected
    values. *)
Definition programsOf (selected : list string) : ProgramsToInclude :=
  {| contract := includes selected "contract";
     predicate := includes selected "predicate";
     script := includes selected "script";
     ownKeys := [Contract; Predicate; Script] |}.

(** [promptForProgramsToInclude()]: reading [includes] off a missing
    answer is a type error. *)
Definition promptForProgramsToInclude : Task ProgramsToInclude :=
  fun h =>
    let '(answer, c) :=
      prompts_multiselect "Which Sway programs do you want?"
        [("Contract", "contract", true); ("Predicate", "predicate", false);
         ("Script", "script", false)] (terminal h) in
    (match answer with
     | Some selected => Done (programsOf selected)
     | None => Raised TypeError
     end, mkHost (disk h) c (stdout h) (calls h)).

(** The text that [writeEnvFile] writes. *)
Definition envFileContents (programsToInclude : ProgramsToInclude) : string :=
  String.concat newline
    (map (fun '(program, include) =>
            "NEXT_PUBLIC_HAS_" +:+ toUpperCase program +:+ "=" +:+
            showBool include)
       (entries programsToInclude)).

(** [writeEnvFile(envFilePath, programsToInclude)]. *)
Definition writeEnvFile (envFilePath : string)
    (programsToInclude : ProgramsToInclude) : Task unit :=
  let newFileContents := envFileContents programsToInclude in
  call (WriteFileSync envFilePath newFileContents).

(** [packageManager === 'npm' ? 'run ' : '']. *)
Definition runWord (packageManager : option string) : string :=
  match packageManager with
  | Some "npm" => "run "
  | _ => ""
  end.

(** The closing messages of [runScaffoldCli]. *)
Definition report (projectPath packageManager : option string) : Task unit :=
  log [] ;;;
  log [] ;;;
  log [green ("⚡️ Success! Created a fullstack Fuel dapp at " +:+
              show projectPath)] ;;;
  log [] ;;;
  log [] ;;;
  log ["To get started:"] ;;;
  log [] ;;;
  log ["- cd into the project directory: cd " +:+ show projectPath] ;;;
  log ["- Start a local Fuel dev server: " +:+ show packageManager +:+ " " +:+
       runWord packageManager +:+ "fuels:dev"] ;;;
  log ["- Run the frontend: " +:+ show packageManager +:+ " " +:+
       runWord packageManager +:+ "dev"] ;;;
  log [] ;;;
  log [] ;;;
  log ["-> TS SDK docs: https://docs.fuel.network/docs/fuels-ts/"] ;;;
  log ["-> Sway docs: https://docs.fuel.network/docs/sway/"] ;;;
  log ["-> If you have any questions, check the Fuel forum: https://forum.fuel.network/"] ;;;
  log [] ;;;
  log [].

(** [runScaffoldCli(explicitProjectPath?, explicitPackageManger?,
    shouldInstallDeps = true, explicitProgramsToInclude?)].  The
    [Command] object made in the first line is not used again. *)
Definition runScaffoldCli
    (explicitProjectPath explicitPackageManger : option string)
    (shouldInstallDeps : option bool)
    (explicitProgramsToInclude : option ProgramsToInclude) : Task unit :=
  projectPath <-
    (if truthy explicitProjectPath then pure explicitProjectPath
     else promptForProjectPath) ;;
  found <- exists_ projectPath ;;
  if found : bool then
    raise (JsError ("A folder already exists at " +:+ show projectPath +:+
                    ". Please choose a different project name."))
  else
  if negb (truthy projectPath) then
    raise (JsError "Please specify a project directory.")
  else
  let path := show projectPath in
  packageManager <-
    (if truthy explicitPackageManger then pure explicitPackageManger
     else promptForPackageManager) ;;
  programsToInclude <-
    match explicitProgramsToInclude with
    | Some given => pure given
    | None => promptForProgramsToInclude
    end ;;
  if negb (contract programsToInclude) && negb (predicate programsToInclude)
     && negb (script programsToInclude) then
    raise (JsError "You must include at least one Sway program.")
  else
  call (Mkdir path) ;;;
  call (Cp (join [dirname; "../templates/nextjs"]) path true) ;;;
  call (Rename (join [path; "gitignore"]) (join [path; ".gitignore"])) ;;;
  call (Rename (join [path; "env"]) (join [path; ".env.local"])) ;;;
  writeEnvFile (join [path; ".env.local"]) programsToInclude ;;;
  (if negb (contract programsToInclude)
   then call (RmSync (join [path; "sway-programs/contract"]) true)
   else pure tt) ;;;
  (if negb (predicate programsToInclude)
   then call (RmSync (join [path; "sway-programs/predicate"]) true) ;;;
        call (RmSync (join [path; "src/pages/predicate.tsx"]) true)
   else pure tt) ;;;
  (if negb (script programsToInclude)
   then call (RmSync (join [path; "sway-programs/script"]) true) ;;;
        call (RmSync (join [path; "src/pages/script.tsx"]) true)
   else pure tt) ;;;
  let forcTomlPath := join [path; "sway-programs"; "Forc.toml"] in
  forcTomlContents <- readFile forcTomlPath ;;
  newForcTomlContents <-
    evaluate (processWorkspaceToml forcTomlContents programsToInclude) ;;
  call (WriteFileSync forcTomlPath newForcTomlContents) ;;;
  (if orTrue shouldInstallDeps
   then call (Chdir path) ;;;
        call (ExecSync (show packageManager +:+ " install"))
   else pure tt) ;;;
  report projectPath packageManager.

(** *** The calls and the output of a complete run, listed *)

(** The removals for the programs that were not asked for. *)
Definition removals (path : string) (o : ProgramsToInclude) : list Call :=
  (if contract o then []
   else [RmSync (join [path; "sway-programs/contract"]) true]) ++
  (if predicate o then []
   else [RmSync (join [path; "sway-programs/predicate"]) true;
         RmSync (join [path; "src/pages/predicate.tsx"]) true]) ++
  (if script o then []
   else [RmSync (join [path; "sway-programs/script"]) true;
         RmSync (join [path; "src/pages/script.tsx"]) true]).

(** What a program occupies in the template: its directory and, for a
    predicate and a script, its page. *)
Definition programPaths (path : string) (m : Program) : list string :=
  match m with
  | Contract => [join [path; "sway-programs/contract"]]
  | Predicate => [join [path; "sway-programs/predicate"];
                  join [path; "src/pages/predicate.tsx"]]
  | Script => [join [path; "sway-programs/script"];
               join [path; "src/pages/script.tsx"]]
  end.

(** Copying the template and writing the environment file. *)
Definition copying (path : string) (o : ProgramsToInclude) : list Call :=
  [Mkdir path;
   Cp (join [dirname; "../templates/nextjs"]) path true;
   Rename (join [path; "gitignore"]) (join [path; ".gitignore"]);
   Rename (join [path; "env"]) (join [path; ".env.local"]);
   WriteFileSync (join [path; ".env.local"]) (envFileContents o)].

(** Installing the dependencies. *)
Definition installing (path : string) (packageManager : option string)
    (install : bool) : list Call :=
  if install
  then [Chdir path; ExecSync (show packageManager +:+ " install")]
  else [].

(** All calls of a run that gets to its end, [newToml] being the text
    written back to [Forc.toml]. *)
Definition plan (path : string) (packageManager : option string)
    (install : bool) (o : ProgramsToInclude) (newToml : string) : list Call :=
  copying path o ++ removals path o ++
  [WriteFileSync (join [path; "sway-programs"; "Forc.toml"]) newToml] ++
  installing path packageManager install.

(** What [report] writes to the standard output. *)
Definition reportLines (projectPath packageManager : option string)
  : list string :=
  map (fun data => String.concat " " data +:+ newline)
    [[]; [];
     [green ("⚡️ Success! Created a fullstack Fuel dapp at " +:+
             show projectPath)];
     []; [];
     ["To get started:"];
     [];
     ["- cd into the project directory: cd " +:+ show projectPath];
     ["- Start a local Fuel dev server: " +:+ show packageManager +:+ " " +:+
      runWord packageManager +:+ "fuels:dev"];
     ["- Run the frontend: " +:+ show packageManager +:+ " " +:+
      runWord packageManager +:+ "dev"];
     []; [];
     ["-> TS SDK docs: https://docs.fuel.network/docs/fuels-ts/"];
     ["-> Sway docs: https://docs.fuel.network/docs/sway/"];
     ["-> If you have any questions, check the Fuel forum: https://forum.fuel.network/"];
     []; []].

(** The disk after the calls [cs], made one after the other. *)
Definition performAll (cs : list Call) (d : F) : F :=
  fold_left (fun d c => (perform c d).2) cs d.

(** What stops a run apart from the tool's own [Error]s. *)
Definition fromBelow (e : Exception) : Prop :=
  e = TypeError \/ exists what, e = HostError what.

(** A task that prompts for nothing and whose calls on host [h] are a
    prefix of [planned].  When it returns it has made all of them and
    [log] has written [printed]; when it fails [log] has written nothing
    and the failure is not an [Error] of the tool. *)
Definition follows {A} (m : Task A) (h : Host F C) (planned : list Call)
    (printed : list string) : Prop :=
  exists evs,
    calls (m h).2 = calls h ++ evs /\
    evs `prefix_of` planned /\
    terminal (m h).2 = terminal h /\
    match (m h).1 with
    | Done _ => evs = planned /\ stdout (m h).2 = stdout h ++ printed
    | Raised e => stdout (m h).2 = stdout h /\ fromBelow e
    end.

(** The same with a plan that depends on a text found on the way, which
    is [good] when the task returns. *)
Definition followsSome {A} (m : Task A) (h : Host F C)
    (planned : string -> list Call) (printed : list string)
    (good : string -> Prop) : Prop :=
  exists text,
    follows m h (planned text) printed /\
    (forall a, (m h).1 = Done a -> good text).

(** The text that goes back into the file at [path] of the disk [d]:
    what [processWorkspaceToml] makes of the contents of that file. *)
Definition trimmed (o : ProgramsToInclude) (path : string) (d : F)
    (text : string) : Prop :=
  exists contents,
    readFileSync path d = inr contents /\
    processWorkspaceToml contents o = Done text.

End Tool.

End Scaffold.

(** ** A provider without resources *)

(** As the provider of [Toy], except that its dependency estimation
    fails. *)
Module ToyStarved.

Definition network : Network nat string string :=
  {| provider_getChainId := fun _ => Ok 7%Z;
     provider_estimateTxDependencies := fun tx p =>
       (Err (CollaboratorError "not enough resources"), tx, S p);
     provider_sendTransaction := fun tx _ p => (Ok "response", tx, S p);
     provider_call := fun tx _ p => (Ok "result", tx, S p) |}.

End ToyStarved.

(** ** A small host for the scaffolding tool *)

(** The disk is the list of the paths that exist; [mkdir] adds one and
    fails on the path [locked]; every file reads as [workspace], a text
    that parses to a workspace of three members, or as [package] on a
    disk that holds the path [bare]; the terminal counts the prompts and
    answers
    [my-fuel-project], [pnpm] and the single program [contract]. *)
Module ScaffoldToy.

Import Scaffold.

#[export] Instance node : Node (list string) :=
  {| existsSync := fun path fs => existsb (String.eqb path) fs;
     readFileSync := fun path fs =>
       if existsb (String.eqb "bare") fs then inr "package"
       else inr "workspace";
     perform := fun c fs =>
       match c with
       | Mkdir path =>
           if String.eqb path "locked" then (Some "EACCES", fs)
           else (None, fs ++ [path])
       | _ => (None, fs)
       end;
     join := String.concat "/";
     dirname := "/tool/dist" |}.

#[export] Instance terminal0 : Terminal nat :=
  {| prompts_text := fun _ _ n => (Some "my-fuel-project", S n);
     prompts_select := fun _ _ n => (Some "pnpm", S n);
     prompts_multiselect := fun _ _ n => (Some ["contract"], S n) |}.

Definition workspaceOf (names : list string) : Value :=
  VTable [("workspace", VTable [("members", VArray (VString <$> names))])].

(** The text [workspace] parses to a workspace of three members, the
    text [package] to a document without a workspace, the empty text does
    not parse. *)
#[export] Instance toml : Toml :=
  {| toml_parse := fun text =>
       if String.eqb text "" then inl "parse error"
       else if String.eqb text "package" then inr (VTable [])
       else inr (workspaceOf ["contract"; "predicate"; "script"]);
     toml_stringify := fun v =>
       match property "workspace" v ≫= property "members" with
       | Some (VArray items) =>
           inr (String.concat "," (omap toPropertyKey items))
       | _ => inl "no workspace"
       end |}.

#[export] Instance chalk : Chalk := {| green := fun text => text |}.

Definition host (fs : list string) : Host (list string) nat :=
  mkHost fs 0 [] [].

Definition onlyContract : ProgramsToInclude :=
  mkPrograms true false false [Contract; Predicate; Script].

End ScaffoldToy.


(** * Properties *)

(** ** The monad and the store *)

Section Basics.

Context {P : Type}.
Implicit Types w : World P.

Lemma logged_nil w : logged w [] = w.
Proof. destruct w; unfold logged; simpl. by rewrite app_nil_r. Qed.

Lemma logged_logged w evs1 evs2 :
  logged (logged w evs1) evs2 = logged w (evs1 ++ evs2).
Proof. unfold logged; simpl. by rewrite app_assoc. Qed.

Lemma bind_run {A B} (m : M P A) (k : A -> M P B) w :
  bind m k w =
  match m w with
  | (Ok a, w') => k a w'
  | (Err e, w') => (Err e, w')
  end.
Proof. reflexivity. Qed.

Lemma ret_bind {A B} (a : A) (k : A -> M P B) w : bind (ret a) k w = k a w.
Proof. reflexivity. Qed.

Lemma emit_run ev w : emit ev w = (Ok tt, logged w [ev]).
Proof. reflexivity. Qed.

(** A call on a request object leaves the log alone. *)
Lemma onRequest_trace {A}
    (f : TransactionRequest -> P -> result A * TransactionRequest * P) r w :
  trace (onRequest f r w).2 = trace w.
Proof.
  unfold onRequest. destruct (heap w !! r) as [tx|]; [|done].
  by destruct (f tx (provider w)) as [[res tx'] p'].
Qed.

End Basics.

Section Properties.

Context {P TransactionResponse CallResult : Type}.
Context `{!Network P TransactionResponse CallResult}.
Context `{!Hasher} `{!Codec} `{!KeyScheme} `{!Keystore}.
Implicit Types (w : World P) (this : BaseWalletUnlocked) (r : ref).
Implicit Types (like : TransactionRequestLike) (evs : list Event).

(** ** What each import does to the world *)

Lemma transactionRequestify_request r w :
  transactionRequestify (LikeRequest r) w = (Ok r, w).
Proof. reflexivity. Qed.

(** [transactionRequestify] allocates at most one new object: the log and
    the provider stay, and so does every object already in the store. *)
Lemma transactionRequestify_frame like w :
  let out := transactionRequestify like w in
  trace out.2 = trace w /\ provider out.2 = provider w /\
  (forall r tx, heap w !! r = Some tx -> heap out.2 !! r = Some tx).
Proof.
  destruct like as [r|text]; simpl; [done|].
  unfold bind, lift, alloc. destruct (request_from text) as [tx|e]; simpl; [|done].
  repeat split. intros r tx0 Hr. by apply lookup_app_l_Some.
Qed.

Lemma sign_run this d w :
  sign this d w = (Signer_sign (signer this) d, logged w [EvSign d]).
Proof. reflexivity. Qed.

Lemma getChainId_run p w :
  getChainId p w = (provider_getChainId (provider w), logged w [EvGetChain]).
Proof. reflexivity. Qed.

Lemma estimateTxDependencies_trace p r w :
  trace (estimateTxDependencies p r w).2 = trace w ++ [EvEstimateTxDependencies r].
Proof.
  unfold estimateTxDependencies. rewrite bind_run, emit_run.
  by rewrite onRequest_trace.
Qed.

Lemma Provider_sendTransaction_trace p r params w :
  trace (Provider_sendTransaction p r params w).2 =
  trace w ++ [EvSendTransaction r params].
Proof.
  unfold Provider_sendTransaction. rewrite bind_run, emit_run.
  by rewrite onRequest_trace.
Qed.

Lemma Provider_call_trace p r params w :
  trace (Provider_call p r params w).2 = trace w ++ [EvCall r params].
Proof.
  unfold Provider_call. rewrite bind_run, emit_run.
  by rewrite onRequest_trace.
Qed.

(** The witness update on a live object: the outcome is that of
    [setWitnessAtOwner], and only a success changes the object. *)
Lemma updateWitnessByOwner_run r a s w tx :
  heap w !! r = Some tx ->
  updateWitnessByOwner r a s w =
  match setWitnessAtOwner tx a s with
  | Ok tx' =>
      (Ok tt, mkWorld (<[r := tx']> (heap w)) (provider w)
                (trace w ++ [EvUpdateWitnessByOwner r a s]))
  | Err e => (Err e, logged w [EvUpdateWitnessByOwner r a s])
  end.
Proof.
  intros Hr. unfold updateWitnessByOwner. rewrite bind_run, emit_run.
  unfold onRequest; simpl. rewrite Hr.
  destruct (setWitnessAtOwner tx a s) as [tx'|e]; [done|].
  unfold logged; simpl. by rewrite list_insert_id.
Qed.

Lemma updateWitnessByOwner_dangling r a s w :
  heap w !! r = None ->
  updateWitnessByOwner r a s w =
  (Err DanglingReference, logged w [EvUpdateWitnessByOwner r a s]).
Proof.
  intros Hr. unfold updateWitnessByOwner. rewrite bind_run, emit_run.
  unfold onRequest; simpl. by rewrite Hr.
Qed.

(** ** [signTransaction] *)

(** The run of [signTransaction] on a request object, case by case. *)
Lemma signTransaction_run this r w :
  signTransaction this (LikeRequest r) w =
  match _provider this with
  | None => (Err MissingProvider, w)
  | Some _ =>
      match provider_getChainId (provider w) with
      | Err e => (Err e, logged w [EvGetChain])
      | Ok chainId =>
          match heap w !! r with
          | None => (Err DanglingReference, logged w [EvGetChain])
          | Some tx =>
              (Signer_sign (signer this) (getTransactionId tx chainId),
               logged w [EvGetChain; EvSign (getTransactionId tx chainId)])
          end
      end
  end.
Proof.
  unfold signTransaction, get_provider.
  rewrite bind_run, transactionRequestify_request.
  destruct (_provider this) as [p|]; [rewrite ret_bind|done].
  rewrite bind_run, getChainId_run.
  destruct (provider_getChainId (provider w)) as [c|e]; [|done].
  rewrite bind_run. unfold read; simpl.
  destruct (heap w !! r) as [tx|]; [|done].
  rewrite bind_run, sign_run, logged_logged; simpl.
  by destruct (Signer_sign _ _).
Qed.

(** Every method starts with [transactionRequestify]; what follows runs on
    the request object it returns. *)
Lemma signTransaction_like this like w :
  signTransaction this like w =
  match transactionRequestify like w with
  | (Ok r, w0) => signTransaction this (LikeRequest r) w0
  | (Err e, w0) => (Err e, w0)
  end.
Proof.
  unfold signTransaction at 1. rewrite bind_run.
  by destruct (transactionRequestify like w) as [[r|e] w0].
Qed.

(** C7: [signTransaction] retrieves the chain id from the provider,
    computes the digest of the transaction bound to that chain id and
    signs it with the wallet's key.  Apart from the log of calls, the world
    it leaves is the one [transactionRequestify] produced: no request
    object and no provider state is changed, every object of the store is
    kept, and the only provider call it logs is the chain retrieval. *)
Theorem signTransaction_frame this like w :
  let start := transactionRequestify like w in
  let out := signTransaction this like w in
  (exists evs, out.2 = logged start.2 evs /\
     (evs = [] \/ evs = [EvGetChain] \/ exists d, evs = [EvGetChain; EvSign d]) /\
     forall ev, ev ∈ evs -> isProviderEvent ev = true -> ev = EvGetChain) /\
  (forall r tx, heap w !! r = Some tx -> heap out.2 !! r = Some tx) /\
  provider out.2 = provider w /\
  (forall r tx chainId,
     start.1 = Ok r -> heap start.2 !! r = Some tx ->
     is_Some (_provider this) ->
     provider_getChainId (provider w) = Ok chainId ->
     out.1 = Signer_sign (signer this) (getTransactionId tx chainId) /\
     out.2 = logged start.2 [EvGetChain; EvSign (getTransactionId tx chainId)]).
Proof.
  intros start out. subst out. rewrite signTransaction_like.
  destruct (transactionRequestify_frame like w) as (_ & Hpr & Hheap).
  fold start in Hpr, Hheap |- *.
  assert (Hget : forall ev, ev ∈ [EvGetChain] ->
            isProviderEvent ev = true -> ev = EvGetChain).
  { intros ev Hin _. by apply list_elem_of_singleton in Hin. }
  assert (Hsign : forall d ev, ev ∈ [EvGetChain; EvSign d] ->
            isProviderEvent ev = true -> ev = EvGetChain).
  { intros d ev Hin Hp. apply elem_of_cons in Hin as [->|Hin]; [done|].
    apply list_elem_of_singleton in Hin as ->. discriminate. }
  assert (Hnil : forall ev : Event, ev ∈ [] ->
            isProviderEvent ev = true -> ev = EvGetChain).
  { intros ev Hin. by apply elem_of_nil in Hin. }
  destruct start as [[r|e] w0]; simpl in *.
  - rewrite signTransaction_run, <- Hpr.
    destruct (_provider this) as [p|] eqn:Hp;
      [destruct (provider_getChainId (provider w0)) as [c|e] eqn:Hc;
         [destruct (heap w0 !! r) as [tx|] eqn:Htx|]|]; simpl.
    + split; [exists [EvGetChain; EvSign (getTransactionId tx c)]; eauto 8|].
      split_and!; [auto..|].
      intros r' tx' c' Hr' Htx' _ Hc'. by simplify_eq.
    + split; [exists [EvGetChain]; eauto 8|].
      split_and!; [auto..|].
      intros r' tx' c' Hr' Htx' _ Hc'. by simplify_eq.
    + split; [exists [EvGetChain]; eauto 8|].
      split_and!; [auto..|].
      intros r' tx' c' Hr' Htx' _ Hc'. by simplify_eq.
    + split; [exists []; rewrite logged_nil; eauto 8|].
      split_and!; [auto..|].
      intros r' tx' c' _ _ [p' Hp']. by simplify_eq.
  - split; [exists []; rewrite logged_nil; eauto 8|].
    split_and!; [auto..|]. intros r' tx' c' Hr'. by simplify_eq.
Qed.

(** ** [populateTransactionWitnessesSignature] *)

Lemma populate_like this like w :
  populateTransactionWitnessesSignature this like w =
  match transactionRequestify like w with
  | (Ok r, w0) => populateTransactionWitnessesSignature this (LikeRequest r) w0
  | (Err e, w0) => (Err e, w0)
  end.
Proof.
  unfold populateTransactionWitnessesSignature at 1. rewrite bind_run.
  by destruct (transactionRequestify like w) as [[r|e] w0].
Qed.

(** On a request object: sign, then update the witness, then return the
    same reference. *)
Lemma populate_run this r w :
  populateTransactionWitnessesSignature this (LikeRequest r) w =
  match signTransaction this (LikeRequest r) w with
  | (Ok s, w1) =>
      match updateWitnessByOwner r (address this) s w1 with
      | (Ok _, w2) => (Ok r, w2)
      | (Err e, w2) => (Err e, w2)
      end
  | (Err e, w1) => (Err e, w1)
  end.
Proof.
  unfold populateTransactionWitnessesSignature.
  rewrite bind_run, transactionRequestify_request, bind_run.
  destruct (signTransaction this (LikeRequest r) w) as [[s|e] w1]; [|done].
  rewrite bind_run.
  by destruct (updateWitnessByOwner r (address this) s w1) as [[[]|e] w2].
Qed.

(** The calls that the population of [r] logs: a prefix of chain
    retrieval, signing and witness update, and all three when it
    succeeds. *)
Lemma populate_trace this r w :
  let out := populateTransactionWitnessesSignature this (LikeRequest r) w in
  exists evs d s,
    trace out.2 = trace w ++ evs /\
    evs `prefix_of`
      [EvGetChain; EvSign d; EvUpdateWitnessByOwner r (address this) s] /\
    (is_ok out.1 = true ->
     out.1 = Ok r /\
     evs = [EvGetChain; EvSign d; EvUpdateWitnessByOwner r (address this) s]).
Proof.
  intros out. subst out. rewrite populate_run, signTransaction_run.
  destruct (_provider this) as [p|]; simpl;
    [|exists [], "", ""; rewrite app_nil_r;
      split_and!; [done|apply prefix_nil|done]].
  destruct (provider_getChainId (provider w)) as [c|e]; simpl;
    [|exists [EvGetChain], "", "";
      split_and!; [done|by apply prefix_cons, prefix_nil|done]].
  destruct (heap w !! r) as [tx|] eqn:Hr; simpl;
    [|exists [EvGetChain], "", "";
      split_and!; [done|by apply prefix_cons, prefix_nil|done]].
  set (d := getTransactionId tx c).
  destruct (Signer_sign (signer this) d) as [s|e]; simpl;
    [|exists [EvGetChain; EvSign d], d, "";
      split_and!; [done|by do 2 apply prefix_cons; apply prefix_nil|done]].
  exists [EvGetChain; EvSign d; EvUpdateWitnessByOwner r (address this) s], d, s.
  rewrite (updateWitnessByOwner_run _ _ _ _ tx) by done.
  destruct (setWitnessAtOwner tx (address this) s) as [tx'|e]; simpl;
    rewrite <- ?app_assoc; simpl; done.
Qed.

(** C2: [populateTransactionWitnessesSignature] computes
    [signTransaction] on the request, hands the resulting signature to the
    codec's witness insertion for the wallet's own address, and returns
    the request it mutated: the same reference, whose object now is the
    one [setWitnessAtOwner] produced.  The log shows the order: chain
    retrieval and signing, then the witness update. *)
Theorem populate_signs_then_inserts this like w r tx s tx' :
  let start := transactionRequestify like w in
  start.1 = Ok r ->
  heap start.2 !! r = Some tx ->
  (signTransaction this (LikeRequest r) start.2).1 = Ok s ->
  setWitnessAtOwner tx (address this) s = Ok tx' ->
  let out := populateTransactionWitnessesSignature this like w in
  out.1 = Ok r /\
  heap out.2 = <[r := tx']> (heap start.2) /\
  heap out.2 !! r = Some tx' /\
  provider out.2 = provider w /\
  exists d,
    trace out.2 =
    trace w ++ [EvGetChain; EvSign d; EvUpdateWitnessByOwner r (address this) s].
Proof.
  intros start Hstart Htx Hsig Hset out. subst out.
  destruct (transactionRequestify_frame like w) as (Htr & Hpr & _).
  fold start in Htr, Hpr. rewrite populate_like. fold start.
  destruct start as [res w0]; simpl in *. subst res.
  rewrite populate_run. revert Hsig. rewrite signTransaction_run.
  destruct (_provider this) as [p|]; [|done].
  destruct (provider_getChainId (provider w0)) as [c|e]; [|done].
  rewrite Htx; simpl. intros Hsig. rewrite Hsig.
  rewrite (updateWitnessByOwner_run _ _ _ _ tx) by done.
  rewrite Hset; simpl. split_and!; [done..| |done|].
  - apply list_lookup_insert_eq. eauto using lookup_lt_Some.
  - exists (getTransactionId tx c). by rewrite Htr, <- app_assoc.
Qed.

(** An address that owns no input has no witness slot. *)
Lemma resolveWitnessIndex_none tx a :
  (forall i, i ∈ inputs tx -> owner i <> Some a) ->
  resolveWitnessIndex tx a = None.
Proof.
  intros Hno. unfold resolveWitnessIndex.
  destruct (find (ownedBy a) (inputs tx)) as [i|] eqn:Hfind; [|done].
  apply find_some in Hfind as [Hin Hown]. exfalso.
  apply (Hno i); [by apply list_elem_of_In|].
  unfold ownedBy in Hown. destruct (owner i) as [o|]; [|done].
  by apply String.eqb_eq in Hown as ->.
Qed.

(** C4, as the code has it: on a request none of whose inputs is owned by
    the wallet's address the population never succeeds and leaves the
    store as it was.  The signature comes first: when [signTransaction]
    fails (no provider, no chain id, a digest the signer rejects) its
    error is the result; when it succeeds the witness insertion is
    reached, rejects the owner with [UnknownOwnerError], and that error is
    the result of the method as it is. *)
Theorem populate_unknown_owner this like w r tx :
  let start := transactionRequestify like w in
  start.1 = Ok r ->
  heap start.2 !! r = Some tx ->
  (forall i, i ∈ inputs tx -> owner i <> Some (address this)) ->
  let out := populateTransactionWitnessesSignature this like w in
  is_ok out.1 = false /\
  heap out.2 = heap start.2 /\
  (forall s, (signTransaction this (LikeRequest r) start.2).1 = Ok s ->
     out.1 = Err UnknownOwnerError /\
     exists d, trace out.2 =
       trace w ++ [EvGetChain; EvSign d; EvUpdateWitnessByOwner r (address this) s]) /\
  (forall e, (signTransaction this (LikeRequest r) start.2).1 = Err e ->
     out.1 = Err e).
Proof.
  intros start Hstart Htx Hno out. subst out.
  destruct (transactionRequestify_frame like w) as (Htr & _ & _).
  fold start in Htr. rewrite populate_like. fold start.
  destruct start as [res w0]; simpl in *. subst res.
  rewrite populate_run, signTransaction_run.
  destruct (_provider this) as [p|];
    [|split_and!; [done..|by intros e [= <-]]].
  destruct (provider_getChainId (provider w0)) as [c|e];
    [|split_and!; [done..|by intros e' [= <-]]].
  rewrite Htx; simpl.
  destruct (Signer_sign (signer this) (getTransactionId tx c)) as [s|e];
    [|split_and!; [done..|by intros e' [= <-]]].
  rewrite (updateWitnessByOwner_run _ _ _ _ tx) by done.
  unfold setWitnessAtOwner. rewrite resolveWitnessIndex_none by done. simpl.
  split_and!; [done..| |done]. intros s' [= <-]. split; [done|].
  exists (getTransactionId tx c). by rewrite Htr, <- app_assoc.
Qed.

(** ** Idempotence of the witness insertion *)

Lemma writeSlot_idem ws i s : writeSlot (writeSlot ws i s) i s = writeSlot ws i s.
Proof.
  revert ws. induction i as [|j IH]; intros [|w0 rest]; simpl; try done.
  - by rewrite IH.
  - by rewrite IH.
Qed.

(** A later write to the same slot wins. *)
Lemma writeSlot_overwrite ws i s1 s2 :
  writeSlot (writeSlot ws i s1) i s2 = writeSlot ws i s2.
Proof.
  revert ws. induction i as [|j IH]; intros [|w0 rest]; simpl; try done.
  - by rewrite IH.
  - by rewrite IH.
Qed.

Lemma writeSlot_lookup ws i s : writeSlot ws i s !! i = Some s.
Proof.
  revert ws. induction i as [|j IH]; intros [|w0 rest]; simpl; try done;
    apply IH.
Qed.

(** The insertion touches the witness list only: the signable fields, and
    with them the digest and the owner's slot, are the same afterwards. *)
Lemma setWitnessAtOwner_signable tx a s tx' :
  setWitnessAtOwner tx a s = Ok tx' ->
  inputs tx' = inputs tx /\ outputs tx' = outputs tx /\
  metadata tx' = metadata tx /\
  (forall chainId, getTransactionId tx' chainId = getTransactionId tx chainId) /\
  (forall b, resolveWitnessIndex tx' b = resolveWitnessIndex tx b).
Proof.
  unfold setWitnessAtOwner.
  destruct (resolveWitnessIndex tx a) as [i|]; [|done].
  by intros [= <-].
Qed.

Lemma setWitnessAtOwner_idem tx a s tx' :
  setWitnessAtOwner tx a s = Ok tx' -> setWitnessAtOwner tx' a s = Ok tx'.
Proof.
  unfold setWitnessAtOwner.
  destruct (resolveWitnessIndex tx a) as [i|] eqn:Hi; [|done].
  intros [= <-].
  change (resolveWitnessIndex (set_witnesses _ tx) a)
    with (resolveWitnessIndex tx a).
  rewrite Hi. unfold set_witnesses; simpl. by rewrite writeSlot_idem.
Qed.

Lemma updateWitnessByOwner_twice r a s w :
  let once := updateWitnessByOwner r a s w in
  let twice := updateWitnessByOwner r a s once.2 in
  heap twice.2 = heap once.2 /\ provider twice.2 = provider once.2 /\
  twice.1 = once.1.
Proof.
  intros once twice. subst once twice.
  destruct (heap w !! r) as [tx|] eqn:Hr.
  - rewrite (updateWitnessByOwner_run _ _ _ w tx) by done.
    destruct (setWitnessAtOwner tx a s) as [tx'|e] eqn:Hset; simpl.
    + rewrite (updateWitnessByOwner_run _ _ _ _ tx'); simpl.
      * rewrite (setWitnessAtOwner_idem _ _ _ _ Hset); simpl.
        by rewrite list_insert_insert_eq.
      * apply list_lookup_insert_eq. eauto using lookup_lt_Some.
    + rewrite (updateWitnessByOwner_run _ _ _ _ tx) by done.
      by rewrite Hset.
  - rewrite (updateWitnessByOwner_dangling _ _ _ w) by done. simpl.
    by rewrite updateWitnessByOwner_dangling.
Qed.

(** C6: inserting the same signature for the same owner a second time
    leaves the witness list (indeed the whole store) as the first
    insertion left it; and populating the same request object a second
    time leaves the store, and so the witness list, as the first
    population left it, with the same outcome. *)
Theorem witness_population_idempotent this r a s w :
  (let once := updateWitnessByOwner r a s w in
   let twice := updateWitnessByOwner r a s once.2 in
   heap twice.2 = heap once.2 /\ twice.1 = once.1) /\
  (let once := populateTransactionWitnessesSignature this (LikeRequest r) w in
   let twice :=
     populateTransactionWitnessesSignature this (LikeRequest r) once.2 in
   heap twice.2 = heap once.2 /\ twice.1 = once.1) /\
  (forall tx tx1,
     setWitnessAtOwner tx a s = Ok tx1 ->
     setWitnessAtOwner tx1 a s = Ok tx1).
Proof.
  split; [|split].
  - by destruct (updateWitnessByOwner_twice r a s w) as (? & _ & ?).
  - intros once twice. subst once twice.
    rewrite (populate_run this r w), (signTransaction_run this r w).
    destruct (_provider this) as [p|] eqn:Hp; simpl;
      [|by rewrite populate_run, signTransaction_run, Hp].
    destruct (provider_getChainId (provider w)) as [c|e] eqn:Hc; simpl;
      [|by rewrite populate_run, signTransaction_run, Hp; simpl; rewrite Hc].
    destruct (heap w !! r) as [tx|] eqn:Hr; simpl;
      [|by rewrite populate_run, signTransaction_run, Hp; simpl;
           rewrite Hc, Hr].
    set (d := getTransactionId tx c).
    destruct (Signer_sign (signer this) d) as [s0|e] eqn:Hs; simpl;
      [|by rewrite populate_run, signTransaction_run, Hp; simpl;
           rewrite Hc, Hr; fold d; rewrite Hs].
    rewrite (updateWitnessByOwner_run _ _ _ _ tx) by done.
    destruct (setWitnessAtOwner tx (address this) s0) as [tx'|e] eqn:Hset;
      simpl.
    + rewrite populate_run, signTransaction_run, Hp; simpl. rewrite Hc.
      rewrite list_lookup_insert_eq by eauto using lookup_lt_Some.
      destruct (setWitnessAtOwner_signable _ _ _ _ Hset) as (_ & _ & _ & Hd & _).
      rewrite Hd. fold d. rewrite Hs.
      rewrite (updateWitnessByOwner_run _ _ _ _ tx'); simpl.
      * rewrite (setWitnessAtOwner_idem _ _ _ _ Hset); simpl.
        by rewrite list_insert_insert_eq.
      * apply list_lookup_insert_eq. eauto using lookup_lt_Some.
    + rewrite populate_run, signTransaction_run, Hp; simpl. rewrite Hc, Hr.
      fold d. rewrite Hs.
      rewrite (updateWitnessByOwner_run _ _ _ _ tx) by done.
      by rewrite Hset.
  - intros tx tx1. apply setWitnessAtOwner_idem.
Qed.

(** ** [sendTransaction] and [simulateTransaction] *)

Lemma sendTransaction_like this like params w :
  sendTransaction this like params w =
  match transactionRequestify like w with
  | (Ok r, w0) => sendTransaction this (LikeRequest r) params w0
  | (Err e, w0) => (Err e, w0)
  end.
Proof.
  unfold sendTransaction at 1. rewrite bind_run.
  by destruct (transactionRequestify like w) as [[r|e] w0].
Qed.

Lemma simulateTransaction_like this like params w :
  simulateTransaction this like params w =
  match transactionRequestify like w with
  | (Ok r, w0) => simulateTransaction this (LikeRequest r) params w0
  | (Err e, w0) => (Err e, w0)
  end.
Proof.
  unfold simulateTransaction at 1. rewrite bind_run.
  by destruct (transactionRequestify like w) as [[r|e] w0].
Qed.

(** The optional first step of both methods. *)
Lemma estimation_trace this (enabled : bool) r w :
  let out :=
    (if enabled
     then provider0 <- get_provider this ;;
          estimateTxDependencies provider0 r
     else ret tt) w in
  exists evs,
    trace out.2 = trace w ++ evs /\
    evs `prefix_of` (if enabled then [EvEstimateTxDependencies r] else []) /\
    (is_ok out.1 = true ->
     evs = if enabled then [EvEstimateTxDependencies r] else []).
Proof.
  destruct enabled; simpl; [|exists []; by rewrite app_nil_r].
  unfold get_provider. rewrite bind_run.
  destruct (_provider this) as [p|]; simpl;
    [|exists []; rewrite app_nil_r; split_and!; [done|apply prefix_nil|done]].
  exists [EvEstimateTxDependencies r].
  by rewrite estimateTxDependencies_trace.
Qed.

(** What follows the estimation, with the last call [final] left open:
    the receiver [this.provider], the population, the last call. *)
Lemma submission_tail_trace {A} this r (final : Provider -> ref -> M P A)
    (last : Event) w :
  (forall p w', trace (final p r w').2 = trace w' ++ [last]) ->
  let out :=
    (provider0 <- get_provider this ;;
     populated <- populateTransactionWitnessesSignature this (LikeRequest r) ;;
     final provider0 populated) w in
  exists evs d s,
    trace out.2 = trace w ++ evs /\
    evs `prefix_of`
      ([EvGetChain; EvSign d; EvUpdateWitnessByOwner r (address this) s] ++
       [last]) /\
    (is_ok out.1 = true ->
     evs = [EvGetChain; EvSign d; EvUpdateWitnessByOwner r (address this) s] ++
           [last]).
Proof.
  intros Hfinal out. subst out. unfold get_provider. rewrite bind_run.
  destruct (_provider this) as [p|]; simpl;
    [|exists [], "", ""; rewrite app_nil_r;
      split_and!; [done|apply prefix_nil|done]].
  rewrite bind_run.
  destruct (populate_trace this r w) as (evs & d & s & Htr & Hpre & Hok).
  destruct (populateTransactionWitnessesSignature this (LikeRequest r) w)
    as [[r'|e] w1]; simpl in *.
  - destruct (Hok eq_refl) as [[= ->] ->].
    eexists _, d, s. rewrite Hfinal, Htr, <- app_assoc. done.
  - exists evs, d, s. split_and!; [done| |done].
    exact (prefix_app_r evs _ [last] Hpre).
Qed.

(** Putting the optional estimation before the rest. *)
Lemma submission_trace {A B} (first : M P A) (rest : M P B)
    (enabled : bool) r a (last : Event) w :
  (exists evs,
     trace (first w).2 = trace w ++ evs /\
     evs `prefix_of` (if enabled then [EvEstimateTxDependencies r] else []) /\
     (is_ok (first w).1 = true ->
      evs = if enabled then [EvEstimateTxDependencies r] else [])) ->
  (forall w', exists evs d s,
     trace (rest w').2 = trace w' ++ evs /\
     evs `prefix_of`
       ([EvGetChain; EvSign d; EvUpdateWitnessByOwner r a s] ++ [last]) /\
     (is_ok (rest w').1 = true ->
      evs = [EvGetChain; EvSign d; EvUpdateWitnessByOwner r a s] ++ [last])) ->
  let out := (first ;;; rest) w in
  exists evs d s,
    trace out.2 = trace w ++ evs /\
    evs `prefix_of` submission enabled r a d s last /\
    (is_ok out.1 = true -> evs = submission enabled r a d s last).
Proof.
  intros (evs1 & Htr1 & Hpre1 & Hok1) Hrest out. subst out.
  rewrite bind_run. unfold submission.
  destruct (first w) as [[x|e] w1]; simpl in Htr1, Hok1.
  - rewrite (Hok1 eq_refl) in Htr1. clear Hok1 Hpre1.
    destruct (Hrest w1) as (evs2 & d & s & Htr2 & Hpre2 & Hok2).
    exists ((if enabled then [EvEstimateTxDependencies r] else []) ++ evs2), d, s.
    split_and!.
    + by rewrite Htr2, Htr1, app_assoc.
    + by apply prefix_app.
    + intros Hok. by rewrite (Hok2 Hok).
  - exists evs1, "", "". split_and!; [done| |done].
    by apply prefix_app_r.
Qed.

Lemma sendTransaction_trace this like params w :
  let out := sendTransaction this like params w in
  exists evs r d s,
    let last :=
      EvSendTransaction r
        {| send_estimateTxDependencies := Some false;
           send_awaitExecution := send_awaitExecution params |} in
    let all :=
      submission (orTrue (send_estimateTxDependencies params)) r
        (address this) d s last in
    trace out.2 = trace w ++ evs /\
    evs `prefix_of` all /\
    (is_ok out.1 = true ->
     (transactionRequestify like w).1 = Ok r /\ evs = all).
Proof.
  intros out. subst out. rewrite sendTransaction_like.
  destruct (transactionRequestify_frame like w) as (Htr0 & _ & _).
  destruct (transactionRequestify like w) as [[r|e] w0]; simpl in *;
    [|exists [], 0, "", ""; rewrite app_nil_r;
      split_and!; [done|apply prefix_nil|done]].
  unfold sendTransaction.
  rewrite bind_run, transactionRequestify_request. cbv zeta.
  match goal with
  | |- context [bind ?first ?k w0] =>
      destruct (submission_trace first (k tt)
                  (orTrue (send_estimateTxDependencies params)) r
                  (address this)
                  (EvSendTransaction r
                     {| send_estimateTxDependencies := Some false;
                        send_awaitExecution := send_awaitExecution params |})
                  w0)
        as (evs & d & s & Htr & Hpre & Hok)
  end.
  - apply estimation_trace.
  - intros w'. apply submission_tail_trace.
    intros p w''. apply Provider_sendTransaction_trace.
  - exists evs, r, d, s. rewrite <- Htr0. split_and!; [done..|].
    intros Hok'. split; [done|]. by apply Hok.
Qed.

Lemma simulateTransaction_trace this like params w :
  let out := simulateTransaction this like params w in
  exists evs r d s,
    let last :=
      EvCall r
        {| call_utxoValidation := Some true;
           call_estimateTxDependencies := Some false |} in
    let all :=
      submission (orTrue (est_estimateTxDependencies params)) r
        (address this) d s last in
    trace out.2 = trace w ++ evs /\
    evs `prefix_of` all /\
    (is_ok out.1 = true ->
     (transactionRequestify like w).1 = Ok r /\ evs = all).
Proof.
  intros out. subst out. rewrite simulateTransaction_like.
  destruct (transactionRequestify_frame like w) as (Htr0 & _ & _).
  destruct (transactionRequestify like w) as [[r|e] w0]; simpl in *;
    [|exists [], 0, "", ""; rewrite app_nil_r;
      split_and!; [done|apply prefix_nil|done]].
  unfold simulateTransaction.
  rewrite bind_run, transactionRequestify_request. cbv zeta.
  match goal with
  | |- context [bind ?first ?k w0] =>
      destruct (submission_trace first (k tt)
                  (orTrue (est_estimateTxDependencies params)) r
                  (address this)
                  (EvCall r
                     {| call_utxoValidation := Some true;
                        call_estimateTxDependencies := Some false |})
                  w0)
        as (evs & d & s & Htr & Hpre & Hok)
  end.
  - apply estimation_trace.
  - intros w'. apply submission_tail_trace.
    intros p w''. apply Provider_call_trace.
  - exists evs, r, d, s. rewrite <- Htr0. split_and!; [done..|].
    intros Hok'. split; [done|]. by apply Hok.
Qed.

(** ** The state machine accepts what the methods log *)

Lemma follow_app ph evs1 evs2 :
  follow ph (evs1 ++ evs2) =
  match follow ph evs1 with
  | Some ph' => follow ph' evs2
  | None => None
  end.
Proof.
  revert ph. induction evs1 as [|ev evs1 IH]; intros ph; simpl; [done|].
  destruct (advance ph ev) as [ph'|]; [apply IH|done].
Qed.

(** Every prefix of an accepted log is accepted. *)
Lemma follow_prefix ph evs all :
  evs `prefix_of` all -> is_Some (follow ph all) -> is_Some (follow ph evs).
Proof.
  intros [k ->]. rewrite follow_app.
  destruct (follow ph evs) as [ph'|]; [eauto|]. by intros [? ?].
Qed.

(** Once the witness is in place the machine takes no estimation. *)
Lemma follow_witnessed ph evs :
  ph <> Unsigned -> ph <> DependenciesEstimated ->
  is_Some (follow ph evs) -> existsb isEstimate evs = false.
Proof.
  revert ph. induction evs as [|ev evs IH]; intros ph Hu Hd; simpl; [done|].
  destruct (advance ph ev) as [ph'|] eqn:Hadv; [|by intros [? ?]].
  intros Hrest.
  assert (isEstimate ev = false /\ ph' <> Unsigned /\
          ph' <> DependenciesEstimated) as (-> & Hu' & Hd').
  { destruct ev, ph; simpl in Hadv; try done; by simplify_eq. }
  simpl. by apply (IH ph').
Qed.

(** The ordering invariant of the machine: in a log it accepts, no
    dependency estimation comes after a witness update. *)
Lemma follow_estimate_first ph evs :
  is_Some (follow ph evs) -> estimateAfterWitness evs = false.
Proof.
  revert ph. induction evs as [|ev evs IH]; intros ph; simpl; [done|].
  destruct (advance ph ev) as [ph'|] eqn:Hadv; [|by intros [? ?]].
  intros Hrest. rewrite (IH ph' Hrest), orb_false_r.
  destruct (isWitness ev) eqn:Hw; [simpl|done].
  apply (follow_witnessed ph'); [..|done];
    destruct ev, ph; simpl in Hadv, Hw; try done; by simplify_eq.
Qed.

Lemma follow_send enabled r a d s params :
  follow Unsigned (submission enabled r a d s (EvSendTransaction r params)) =
  Some Submitted.
Proof. by destruct enabled. Qed.

Lemma follow_call enabled r a d s params :
  follow Unsigned (submission enabled r a d s (EvCall r params)) =
  Some Simulated.
Proof. by destruct enabled. Qed.

Lemma elem_of_prefix (evs all : list Event) ev :
  evs `prefix_of` all -> ev ∈ evs -> ev ∈ all.
Proof. intros [k ->] Hin. apply elem_of_app. by left. Qed.

Lemma elem_of_submission enabled r a d s last ev :
  ev ∈ submission enabled r a d s last ->
  (enabled = true /\ ev = EvEstimateTxDependencies r) \/
  ev = EvGetChain \/ ev = EvSign d \/
  ev = EvUpdateWitnessByOwner r a s \/ ev = last.
Proof.
  unfold submission. rewrite elem_of_app. intros [Hin|Hin].
  - destruct enabled; [|by apply elem_of_nil in Hin].
    apply list_elem_of_singleton in Hin. auto.
  - simpl in Hin. repeat (apply elem_of_cons in Hin as [->|Hin]; [auto 6|]).
    by apply elem_of_nil in Hin.
Qed.

(** C1: in every call of [sendTransaction] and of [simulateTransaction]
    the calls come in the strict order dependency estimation (only when
    the option is enabled), then witness population (chain id, signature,
    witness update), then the provider's submission or simulation.  A run
    that fails logs a prefix of that sequence, a run that returns logs all
    of it; the log is accepted by the state machine, a returning run ends
    in [Submitted] or [Simulated], and no dependency estimation follows a
    witness update. *)
Theorem submission_order this like send_params est_params w :
  (let out := sendTransaction this like send_params w in
   exists evs r d s,
     let all :=
       submission (orTrue (send_estimateTxDependencies send_params)) r
         (address this) d s
         (EvSendTransaction r
            {| send_estimateTxDependencies := Some false;
               send_awaitExecution := send_awaitExecution send_params |}) in
     trace out.2 = trace w ++ evs /\
     evs `prefix_of` all /\
     (is_ok out.1 = true ->
      (transactionRequestify like w).1 = Ok r /\ evs = all /\
      follow Unsigned evs = Some Submitted) /\
     is_Some (follow Unsigned evs) /\
     estimateAfterWitness evs = false) /\
  (let out := simulateTransaction this like est_params w in
   exists evs r d s,
     let all :=
       submission (orTrue (est_estimateTxDependencies est_params)) r
         (address this) d s
         (EvCall r
            {| call_utxoValidation := Some true;
               call_estimateTxDependencies := Some false |}) in
     trace out.2 = trace w ++ evs /\
     evs `prefix_of` all /\
     (is_ok out.1 = true ->
      (transactionRequestify like w).1 = Ok r /\ evs = all /\
      follow Unsigned evs = Some Simulated) /\
     is_Some (follow Unsigned evs) /\
     estimateAfterWitness evs = false).
Proof.
  split.
  - destruct (sendTransaction_trace this like send_params w)
      as (evs & r & d & s & Htr & Hpre & Hok).
    exists evs, r, d, s. cbv zeta in *.
    assert (is_Some (follow Unsigned evs)) as Hacc.
    { apply (follow_prefix _ _ _ Hpre). rewrite follow_send. eauto. }
    split_and!; [done..| |done|by apply (follow_estimate_first Unsigned)].
    intros Hret. destruct (Hok Hret) as [Hr ->]. by rewrite follow_send.
  - destruct (simulateTransaction_trace this like est_params w)
      as (evs & r & d & s & Htr & Hpre & Hok).
    exists evs, r, d, s. cbv zeta in *.
    assert (is_Some (follow Unsigned evs)) as Hacc.
    { apply (follow_prefix _ _ _ Hpre). rewrite follow_call. eauto. }
    split_and!; [done..| |done|by apply (follow_estimate_first Unsigned)].
    intros Hret. destruct (Hok Hret) as [Hr ->]. by rewrite follow_call.
Qed.

(** C3: whatever [sendTransaction] is called with, the parameters it hands
    to the provider's submission carry [estimateTxDependencies: false]
    (and the caller's [awaitExecution]); whatever [simulateTransaction] is
    called with, the parameters it hands to the provider's simulation carry
    [utxoValidation: true] and [estimateTxDependencies: false].  A call
    that returns has made that provider call. *)
Theorem provider_flags this like send_params est_params w :
  (let out := sendTransaction this like send_params w in
   let passed :=
     {| send_estimateTxDependencies := Some false;
        send_awaitExecution := send_awaitExecution send_params |} in
   exists evs,
     trace out.2 = trace w ++ evs /\
     (forall r params, EvSendTransaction r params ∈ evs -> params = passed) /\
     (forall r params, EvCall r params ∉ evs) /\
     (is_ok out.1 = true -> exists r, EvSendTransaction r passed ∈ evs)) /\
  (let out := simulateTransaction this like est_params w in
   let passed :=
     {| call_utxoValidation := Some true;
        call_estimateTxDependencies := Some false |} in
   exists evs,
     trace out.2 = trace w ++ evs /\
     (forall r params, EvCall r params ∈ evs -> params = passed) /\
     (forall r params, EvSendTransaction r params ∉ evs) /\
     (is_ok out.1 = true -> exists r, EvCall r passed ∈ evs)).
Proof.
  split.
  - destruct (sendTransaction_trace this like send_params w)
      as (evs & r & d & s & Htr & Hpre & Hok).
    exists evs. cbv zeta in *. split_and!; [done|..].
    + intros r' params Hin.
      apply (elem_of_prefix _ _ _ Hpre), elem_of_submission in Hin.
      destruct Hin as [[_ ?]|[?|[?|[?|?]]]]; by simplify_eq.
    + intros r' params Hin.
      apply (elem_of_prefix _ _ _ Hpre), elem_of_submission in Hin.
      destruct Hin as [[_ ?]|[?|[?|[?|?]]]]; by simplify_eq.
    + intros Hret. destruct (Hok Hret) as [_ ->]. exists r.
      unfold submission. rewrite !elem_of_app. right; right.
      by apply list_elem_of_singleton.
  - destruct (simulateTransaction_trace this like est_params w)
      as (evs & r & d & s & Htr & Hpre & Hok).
    exists evs. cbv zeta in *. split_and!; [done|..].
    + intros r' params Hin.
      apply (elem_of_prefix _ _ _ Hpre), elem_of_submission in Hin.
      destruct Hin as [[_ ?]|[?|[?|[?|?]]]]; by simplify_eq.
    + intros r' params Hin.
      apply (elem_of_prefix _ _ _ Hpre), elem_of_submission in Hin.
      destruct Hin as [[_ ?]|[?|[?|[?|?]]]]; by simplify_eq.
    + intros Hret. destruct (Hok Hret) as [_ ->]. exists r.
      unfold submission. rewrite !elem_of_app. right; right.
      by apply list_elem_of_singleton.
Qed.

(** C10: with [estimateTxDependencies: false] the two methods make no
    estimation call at all: the run is the population followed by the
    provider call, the log holds no estimation, and the flag handed to the
    provider is [false] as well. *)
Theorem opt_out_skips_estimation this like awaitExecution w :
  let send_params :=
    {| send_estimateTxDependencies := Some false;
       send_awaitExecution := awaitExecution |} in
  let est_params := {| est_estimateTxDependencies := Some false |} in
  (let out := sendTransaction this like send_params w in
   out =
     (r <- transactionRequestify like ;;
      provider0 <- get_provider this ;;
      populated <- populateTransactionWitnessesSignature this (LikeRequest r) ;;
      Provider_sendTransaction provider0 populated send_params) w /\
   exists evs,
     trace out.2 = trace w ++ evs /\
     (forall ev, ev ∈ evs -> isEstimate ev = false) /\
     (forall r params, EvSendTransaction r params ∈ evs ->
        send_estimateTxDependencies params = Some false)) /\
  (let out := simulateTransaction this like est_params w in
   out =
     (r <- transactionRequestify like ;;
      provider0 <- get_provider this ;;
      populated <- populateTransactionWitnessesSignature this (LikeRequest r) ;;
      Provider_call provider0 populated
        {| call_utxoValidation := Some true;
           call_estimateTxDependencies := Some false |}) w /\
   exists evs,
     trace out.2 = trace w ++ evs /\
     (forall ev, ev ∈ evs -> isEstimate ev = false) /\
     (forall r params, EvCall r params ∈ evs ->
        call_estimateTxDependencies params = Some false)).
Proof.
  intros send_params est_params. split.
  - split; [done|].
    destruct (sendTransaction_trace this like send_params w)
      as (evs & r & d & s & Htr & Hpre & Hok).
    exists evs. cbv zeta in *. split_and!; [done|..].
    + intros ev Hin.
      apply (elem_of_prefix _ _ _ Hpre), elem_of_submission in Hin.
      destruct Hin as [[? _]|[?|[?|[?|?]]]]; by simplify_eq.
    + intros r' params Hin.
      apply (elem_of_prefix _ _ _ Hpre), elem_of_submission in Hin.
      destruct Hin as [[? _]|[?|[?|[?|?]]]]; by simplify_eq.
  - split; [done|].
    destruct (simulateTransaction_trace this like est_params w)
      as (evs & r & d & s & Htr & Hpre & Hok).
    exists evs. cbv zeta in *. split_and!; [done|..].
    + intros ev Hin.
      apply (elem_of_prefix _ _ _ Hpre), elem_of_submission in Hin.
      destruct Hin as [[? _]|[?|[?|[?|?]]]]; by simplify_eq.
    + intros r' params Hin.
      apply (elem_of_prefix _ _ _ Hpre), elem_of_submission in Hin.
      destruct Hin as [[? _]|[?|[?|[?|?]]]]; by simplify_eq.
Qed.

(** ** Construction, the getters and [encrypt] *)

Lemma new_BaseWalletUnlocked_ok k provider0 this :
  new_BaseWalletUnlocked k provider0 = Ok this ->
  valid_key k = true /\
  this = {| signer := {| signer_privateKey := k;
                         signer_publicKey := derivePublicKey k;
                         signer_address := deriveAddress (derivePublicKey k) |};
            address := deriveAddress (derivePublicKey k);
            _provider := provider0 |}.
Proof.
  unfold new_BaseWalletUnlocked, new_Signer.
  destruct (valid_key k); [|done]. by intros [= <-].
Qed.

(** [signMessage] signs the hash of the message with the wallet's key; it
    logs the signing and nothing else, and changes nothing else. *)
Lemma signMessage_run this message w :
  signMessage this message w =
  (Signer_sign (signer this) (hashMessage message),
   logged w [EvSign (hashMessage message)]).
Proof.
  unfold signMessage. rewrite bind_run, sign_run.
  by destruct (Signer_sign _ _).
Qed.

Lemma encrypt_run this password w :
  encrypt this password w =
  (encryptKeystoreWallet (privateKey this) (address this) password,
   logged w [EvEncryptKeystoreWallet (privateKey this) (address this) password]).
Proof. reflexivity. Qed.

(** Two computations that agree step by step agree. *)
Lemma bind_ext {A B} (m1 m2 : M P A) (k1 k2 : A -> M P B) w :
  m1 w = m2 w -> (forall a w', k1 a w' = k2 a w') ->
  bind m1 k1 w = bind m2 k2 w.
Proof.
  intros Hm Hk. rewrite !bind_run, Hm.
  by destruct (m2 w) as [[a|e] w'].
Qed.

Lemma sign_sameSigner this that d w :
  sameSigner this that -> sign this d w = sign that d w.
Proof. intros (_ & _ & Hs). by rewrite !sign_run, Hs. Qed.

Lemma get_provider_sameSigner this that w :
  sameSigner this that -> get_provider this w = get_provider that w.
Proof. intros (_ & Hp & _). unfold get_provider. by rewrite Hp. Qed.

Lemma signTransaction_sameSigner this that like w :
  sameSigner this that ->
  signTransaction this like w = signTransaction that like w.
Proof.
  intros Hsame. unfold signTransaction.
  apply bind_ext; [done|]. intros r w1.
  apply bind_ext; [by apply get_provider_sameSigner|]. intros p w2.
  apply bind_ext; [done|]. intros c w3.
  apply bind_ext; [done|]. intros tx w4.
  apply bind_ext; [by apply sign_sameSigner|done].
Qed.

Lemma populate_sameSigner this that like w :
  sameSigner this that ->
  populateTransactionWitnessesSignature this like w =
  populateTransactionWitnessesSignature that like w.
Proof.
  intros Hsame. unfold populateTransactionWitnessesSignature.
  apply bind_ext; [done|]. intros r w1.
  apply bind_ext; [by apply signTransaction_sameSigner|]. intros s w2.
  destruct Hsame as (-> & _ & _). done.
Qed.

Lemma sendTransaction_sameSigner this that like params w :
  sameSigner this that ->
  sendTransaction this like params w = sendTransaction that like params w.
Proof.
  intros Hsame. unfold sendTransaction.
  apply bind_ext; [done|]. intros r w1.
  apply bind_ext.
  { destruct (orTrue _); [|done].
    apply bind_ext; [by apply get_provider_sameSigner|done]. }
  intros _ w2.
  apply bind_ext; [by apply get_provider_sameSigner|]. intros p w3.
  apply bind_ext; [by apply populate_sameSigner|done].
Qed.

Lemma simulateTransaction_sameSigner this that like params w :
  sameSigner this that ->
  simulateTransaction this like params w =
  simulateTransaction that like params w.
Proof.
  intros Hsame. unfold simulateTransaction.
  apply bind_ext; [done|]. intros r w1.
  apply bind_ext.
  { destruct (orTrue _); [|done].
    apply bind_ext; [by apply get_provider_sameSigner|done]. }
  intros _ w2.
  apply bind_ext; [by apply get_provider_sameSigner|]. intros p w3.
  apply bind_ext; [by apply populate_sameSigner|done].
Qed.

(** C5, as the code has it: the wallet does give out its private key.
    The getter [privateKey] returns the very key the wallet was built
    from, and [encrypt] hands that key, with the address and the password,
    to the keystore.  The signing and submission methods are the ones that
    keep it inside: they use the key through the signer's [sign] only, so a
    wallet with another key whose signer signs alike behaves alike. *)
Theorem private_key_exposure k provider0 this :
  new_BaseWalletUnlocked k provider0 = Ok this ->
  privateKey this = k /\
  (forall password w,
     encrypt this password w =
     (encryptKeystoreWallet k (address this) password,
      logged w [EvEncryptKeystoreWallet k (address this) password])) /\
  (forall that, sameSigner this that ->
     (forall message w, signMessage this message w = signMessage that message w) /\
     (forall like w, signTransaction this like w = signTransaction that like w) /\
     (forall like w,
        populateTransactionWitnessesSignature this like w =
        populateTransactionWitnessesSignature that like w) /\
     (forall like params w,
        sendTransaction this like params w =
        sendTransaction that like params w) /\
     (forall like params w,
        simulateTransaction this like params w =
        simulateTransaction that like params w)).
Proof.
  intros [_ ->]%new_BaseWalletUnlocked_ok. split_and!; [done..|].
  intros that Hsame. split_and!.
  - intros message w. rewrite !signMessage_run.
    destruct Hsame as (_ & _ & Hs). by rewrite Hs.
  - intros like w. by apply signTransaction_sameSigner.
  - intros like w. by apply populate_sameSigner.
  - intros like params w. by apply sendTransaction_sameSigner.
  - intros like params w. by apply simulateTransaction_sameSigner.
Qed.

(** ** Message signatures and transaction signatures *)

(** X1: [signMessage] hashes the message with [hashMessage] and signs
    that hash with the wallet's key.  It makes no call on the provider and
    changes neither the store nor the provider. *)
Theorem signMessage_local this message w :
  let out := signMessage this message w in
  out.1 = Signer_sign (signer this) (hashMessage message) /\
  heap out.2 = heap w /\
  provider out.2 = provider w /\
  trace out.2 = trace w ++ [EvSign (hashMessage message)] /\
  forall ev, ev ∈ [EvSign (hashMessage message)] -> isProviderEvent ev = false.
Proof.
  cbv zeta. rewrite signMessage_run. split_and!; [done..|].
  intros ev Hin. by apply list_elem_of_singleton in Hin as ->.
Qed.

(** X2: both signing methods hand their digest to the same [sign] of the
    same signer, with nothing added by the wallet.  So the two signatures are the same
    whenever the message hash and the transaction digest are the same; and
    for a signer that never gives one signature to two digests, they differ
    whenever the two digests differ. *)
Theorem signatures_follow_digests this message r tx chainId w :
  heap w !! r = Some tx ->
  is_Some (_provider this) ->
  provider_getChainId (provider w) = Ok chainId ->
  let signedMessage := (signMessage this message w).1 in
  let signedTransaction := (signTransaction this (LikeRequest r) w).1 in
  (hashMessage message = getTransactionId tx chainId ->
   signedMessage = signedTransaction) /\
  ((forall d1 d2 s,
      Signer_sign (signer this) d1 = Ok s ->
      Signer_sign (signer this) d2 = Ok s -> d1 = d2) ->
   hashMessage message <> getTransactionId tx chainId ->
   is_ok signedMessage = true ->
   signedMessage <> signedTransaction).
Proof.
  intros Hr [p Hp] Hc. cbv zeta.
  rewrite signMessage_run, signTransaction_run, Hp, Hc, Hr. simpl. split.
  - by intros ->.
  - intros Hinj Hne Hok Heq.
    destruct (Signer_sign (signer this) (hashMessage message)) as [s|e] eqn:Hm;
      [|done].
    symmetry in Heq. by apply Hne, (Hinj _ _ s).
Qed.

End Properties.

(** * What a submission hands to the provider *)

Section Submission.

Context {P TransactionResponse CallResult : Type}.
Context `{!Network P TransactionResponse CallResult}.
Context `{!Hasher} `{!Codec} `{!KeyScheme} `{!Keystore}.
Implicit Types (w : World P) (this : BaseWalletUnlocked) (r : ref).
Implicit Types (like : TransactionRequestLike) (tx : TransactionRequest).

(** A call on a live object, with the callee's outcome spelled out. *)
Lemma onRequest_run {A}
    (f : TransactionRequest -> P -> result A * TransactionRequest * P)
    r w tx :
  heap w !! r = Some tx ->
  onRequest f r w =
  ((f tx (provider w)).1.1,
   mkWorld (<[r := (f tx (provider w)).1.2]> (heap w))
     (f tx (provider w)).2 (trace w)).
Proof.
  intros Hr. unfold onRequest. rewrite Hr.
  by destruct (f tx (provider w)) as [[res tx'] p'].
Qed.

Lemma estimateTxDependencies_run p r w tx :
  heap w !! r = Some tx ->
  let est := provider_estimateTxDependencies tx (provider w) in
  estimateTxDependencies p r w =
  (est.1.1,
   mkWorld (<[r := est.1.2]> (heap w)) est.2
     (trace w ++ [EvEstimateTxDependencies r])).
Proof.
  intros Hr est. unfold estimateTxDependencies.
  rewrite bind_run, emit_run.
  by rewrite (onRequest_run _ _ _ tx).
Qed.

(** The population of a live object when every step succeeds. *)
Lemma populate_ok this r w tx p chainId s tx' :
  heap w !! r = Some tx ->
  _provider this = Some p ->
  provider_getChainId (provider w) = Ok chainId ->
  Signer_sign (signer this) (getTransactionId tx chainId) = Ok s ->
  setWitnessAtOwner tx (address this) s = Ok tx' ->
  populateTransactionWitnessesSignature this (LikeRequest r) w =
  (Ok r,
   mkWorld (<[r := tx']> (heap w)) (provider w)
     (trace w ++ [EvGetChain; EvSign (getTransactionId tx chainId);
                  EvUpdateWitnessByOwner r (address this) s])).
Proof.
  intros Hr Hp Hc Hs Hset.
  rewrite populate_run, signTransaction_run, Hp, Hc, Hr, Hs.
  rewrite (updateWitnessByOwner_run _ _ _ _ tx) by done.
  rewrite Hset. simpl. by rewrite <- app_assoc.
Qed.

(** The two methods up to their last call: when the estimation (if it is
    enabled), the chain retrieval, the signature and the witness insertion
    succeed, the last call [final] runs on the request object that holds
    the signature of its own digest as the estimation left it. *)
Lemma prelude_ok {A} this r (enabled : bool) (final : Provider -> ref -> M P A)
    w tx p chainId s tx2 :
  heap w !! r = Some tx ->
  _provider this = Some p ->
  let est :=
    if enabled then provider_estimateTxDependencies tx (provider w)
    else (Ok tt, tx, provider w) in
  est.1.1 = Ok tt ->
  provider_getChainId est.2 = Ok chainId ->
  Signer_sign (signer this) (getTransactionId est.1.2 chainId) = Ok s ->
  setWitnessAtOwner est.1.2 (address this) s = Ok tx2 ->
  ((if enabled
    then provider0 <- get_provider this ;;
         estimateTxDependencies provider0 r
    else ret tt) ;;;
   provider0 <- get_provider this ;;
   populated <- populateTransactionWitnessesSignature this (LikeRequest r) ;;
   final provider0 populated) w =
  final p r
    (mkWorld (<[r := tx2]> (heap w)) est.2
       (trace w ++
        (if enabled then [EvEstimateTxDependencies r] else []) ++
        [EvGetChain; EvSign (getTransactionId est.1.2 chainId);
         EvUpdateWitnessByOwner r (address this) s])).
Proof.
  intros Hr Hp est Hest Hc Hs Hset. subst est.
  assert (Hlt : r < length (heap w)) by eauto using lookup_lt_Some.
  rewrite bind_run. destruct enabled.
  - unfold get_provider at 1. rewrite Hp, ret_bind.
    rewrite (estimateTxDependencies_run _ _ _ tx) by done. cbv zeta.
    destruct (provider_estimateTxDependencies tx (provider w))
      as [[res tx1] p1]; simpl in *. subst res.
    unfold get_provider. rewrite Hp, ret_bind, bind_run.
    rewrite (populate_ok this r _ tx1 p chainId s tx2); simpl; try done;
      [|by apply list_lookup_insert_eq].
    by rewrite list_insert_insert_eq, <- app_assoc.
  - simpl in *. unfold get_provider. rewrite Hp, ret_bind, bind_run.
    by rewrite (populate_ok this r _ tx p chainId s tx2).
Qed.

(** X3: a successful [sendTransaction] on a request object.  When the
    estimation (if enabled), the chain retrieval, the signature and the
    witness insertion succeed, the provider's [sendTransaction] receives
    the request that carries the signature of the digest of the request
    as the estimation left it, with [estimateTxDependencies: false]; what
    the provider returns is the result, unchanged. *)
Theorem sendTransaction_submits_signed this r params w tx p chainId s tx2 :
  heap w !! r = Some tx ->
  _provider this = Some p ->
  let enabled := orTrue (send_estimateTxDependencies params) in
  let est :=
    if enabled then provider_estimateTxDependencies tx (provider w)
    else (Ok tt, tx, provider w) in
  est.1.1 = Ok tt ->
  provider_getChainId est.2 = Ok chainId ->
  Signer_sign (signer this) (getTransactionId est.1.2 chainId) = Ok s ->
  setWitnessAtOwner est.1.2 (address this) s = Ok tx2 ->
  let passed :=
    {| send_estimateTxDependencies := Some false;
       send_awaitExecution := send_awaitExecution params |} in
  let sent := provider_sendTransaction tx2 passed est.2 in
  sendTransaction this (LikeRequest r) params w =
  (sent.1.1,
   mkWorld (<[r := sent.1.2]> (heap w)) sent.2
     (trace w ++
      submission enabled r (address this)
        (getTransactionId est.1.2 chainId) s (EvSendTransaction r passed))).
Proof.
  intros Hr Hp enabled est Hest Hc Hs Hset passed sent.
  assert (Hlt : r < length (heap w)) by eauto using lookup_lt_Some.
  unfold sendTransaction.
  rewrite bind_run, transactionRequestify_request. cbv zeta.
  fold enabled.
  rewrite (prelude_ok this r enabled _ w tx p chainId s tx2) by done.
  unfold Provider_sendTransaction. rewrite bind_run, emit_run.
  rewrite (onRequest_run _ _ _ tx2); simpl;
    [|by apply list_lookup_insert_eq].
  fold est passed. fold sent. unfold submission.
  by rewrite list_insert_insert_eq, <- !app_assoc.
Qed.

(** X4: a successful [simulateTransaction] on a request object signs and
    mutates it exactly as [sendTransaction] does; only the last call
    differs: the provider's [call] with [utxoValidation: true] and
    [estimateTxDependencies: false]. *)
Theorem simulateTransaction_calls_signed this r params w tx p chainId s tx2 :
  heap w !! r = Some tx ->
  _provider this = Some p ->
  let enabled := orTrue (est_estimateTxDependencies params) in
  let est :=
    if enabled then provider_estimateTxDependencies tx (provider w)
    else (Ok tt, tx, provider w) in
  est.1.1 = Ok tt ->
  provider_getChainId est.2 = Ok chainId ->
  Signer_sign (signer this) (getTransactionId est.1.2 chainId) = Ok s ->
  setWitnessAtOwner est.1.2 (address this) s = Ok tx2 ->
  let passed :=
    {| call_utxoValidation := Some true;
       call_estimateTxDependencies := Some false |} in
  let called := provider_call tx2 passed est.2 in
  simulateTransaction this (LikeRequest r) params w =
  (called.1.1,
   mkWorld (<[r := called.1.2]> (heap w)) called.2
     (trace w ++
      submission enabled r (address this)
        (getTransactionId est.1.2 chainId) s (EvCall r passed))).
Proof.
  intros Hr Hp enabled est Hest Hc Hs Hset passed called.
  assert (Hlt : r < length (heap w)) by eauto using lookup_lt_Some.
  unfold simulateTransaction.
  rewrite bind_run, transactionRequestify_request. cbv zeta.
  fold enabled.
  rewrite (prelude_ok this r enabled _ w tx p chainId s tx2) by done.
  unfold Provider_call. rewrite bind_run, emit_run.
  rewrite (onRequest_run _ _ _ tx2); simpl;
    [|by apply list_lookup_insert_eq].
  fold est passed. fold called. unfold submission.
  by rewrite list_insert_insert_eq, <- !app_assoc.
Qed.

(** X5: when the dependency estimation fails, both methods stop there.
    The provider's error is the result; the log holds the estimation and
    nothing else, so nothing was signed, no witness was written and
    nothing was submitted; the request object is as the provider left
    it. *)
Theorem estimation_failure_stops this r send_params est_params w tx p e :
  heap w !! r = Some tx ->
  _provider this = Some p ->
  (provider_estimateTxDependencies tx (provider w)).1.1 = Err e ->
  let est := provider_estimateTxDependencies tx (provider w) in
  let after :=
    mkWorld (<[r := est.1.2]> (heap w)) est.2
      (trace w ++ [EvEstimateTxDependencies r]) in
  (orTrue (send_estimateTxDependencies send_params) = true ->
   sendTransaction this (LikeRequest r) send_params w = (Err e, after)) /\
  (orTrue (est_estimateTxDependencies est_params) = true ->
   simulateTransaction this (LikeRequest r) est_params w = (Err e, after)).
Proof.
  intros Hr Hp He est after. split; intros Hon.
  - unfold sendTransaction.
    rewrite bind_run, transactionRequestify_request. cbv zeta.
    rewrite Hon, bind_run. unfold get_provider at 1. rewrite Hp, ret_bind.
    rewrite (estimateTxDependencies_run _ _ _ tx) by done. cbv zeta.
    subst est after. by rewrite He.
  - unfold simulateTransaction.
    rewrite bind_run, transactionRequestify_request. cbv zeta.
    rewrite Hon, bind_run. unfold get_provider at 1. rewrite Hp, ret_bind.
    rewrite (estimateTxDependencies_run _ _ _ tx) by done. cbv zeta.
    subst est after. by rewrite He.
Qed.

(** X6: with the estimation switched off, a population that fails makes
    both methods fail in the same way: same error, same world.  The
    provider's submission or simulation is not reached. *)
Theorem population_failure_propagates this like awaitExecution w e w' :
  populateTransactionWitnessesSignature this like w = (Err e, w') ->
  sendTransaction this like
    {| send_estimateTxDependencies := Some false;
       send_awaitExecution := awaitExecution |} w = (Err e, w') /\
  simulateTransaction this like
    {| est_estimateTxDependencies := Some false |} w = (Err e, w').
Proof.
  rewrite populate_like, sendTransaction_like, simulateTransaction_like.
  destruct (transactionRequestify like w) as [[r|e0] w0];
    [|by intros [= <- <-]].
  intros Hpop. unfold sendTransaction, simulateTransaction.
  rewrite !bind_run, !transactionRequestify_request. cbv zeta. simpl orTrue.
  cbv iota. rewrite !ret_bind. unfold get_provider.
  destruct (_provider this) as [p|] eqn:Hp.
  - rewrite !ret_bind, !bind_run, Hpop. done.
  - revert Hpop. rewrite populate_run, signTransaction_run, Hp.
    by intros [= <- <-].
Qed.

(** X7: the population of a request object touches that object only.  The
    provider's state, the size of the store and every other object are as
    before; the object itself is either as before or what the witness
    insertion made of it for the wallet's address. *)
Theorem populate_frame this r w :
  let out := populateTransactionWitnessesSignature this (LikeRequest r) w in
  provider out.2 = provider w /\
  length (heap out.2) = length (heap w) /\
  (forall r', r' <> r -> heap out.2 !! r' = heap w !! r') /\
  (heap out.2 !! r = heap w !! r \/
   exists tx s tx',
     heap w !! r = Some tx /\
     setWitnessAtOwner tx (address this) s = Ok tx' /\
     heap out.2 !! r = Some tx' /\ out.1 = Ok r).
Proof.
  cbv zeta. rewrite populate_run, signTransaction_run.
  destruct (_provider this) as [p|]; [|by auto].
  destruct (provider_getChainId (provider w)) as [c|e]; [|by auto].
  destruct (heap w !! r) as [tx|] eqn:Hr; [|by simpl; rewrite Hr; auto].
  destruct (Signer_sign (signer this) (getTransactionId tx c)) as [s|e];
    [|by simpl; rewrite Hr; auto].
  rewrite (updateWitnessByOwner_run _ _ _ _ tx) by done.
  destruct (setWitnessAtOwner tx (address this) s) as [tx'|e] eqn:Hset;
    simpl; [|by rewrite Hr; auto].
  split_and!; [done|by rewrite length_insert|..].
  - intros r' Hne. by rewrite list_lookup_insert_ne.
  - right. exists tx, s, tx'. split_and!; [done..| |done].
    apply list_lookup_insert_eq. eauto using lookup_lt_Some.
Qed.

(** X8: a wallet built without a provider.  On a request object
    [signTransaction], the population and both submission methods fail
    with the provider accessor's error before anything is signed, logged
    or changed; [signMessage] does not need the provider and signs as
    usual. *)
Theorem offline_wallet this r send_params est_params message w :
  _provider this = None ->
  signTransaction this (LikeRequest r) w = (Err MissingProvider, w) /\
  populateTransactionWitnessesSignature this (LikeRequest r) w =
    (Err MissingProvider, w) /\
  sendTransaction this (LikeRequest r) send_params w =
    (Err MissingProvider, w) /\
  simulateTransaction this (LikeRequest r) est_params w =
    (Err MissingProvider, w) /\
  (signMessage this message w).1 =
    Signer_sign (signer this) (hashMessage message).
Proof.
  intros Hp.
  assert (Hsign : signTransaction this (LikeRequest r) w =
                  (Err MissingProvider, w)).
  { by rewrite signTransaction_run, Hp. }
  assert (Hpop : populateTransactionWitnessesSignature this (LikeRequest r) w =
                 (Err MissingProvider, w)).
  { by rewrite populate_run, Hsign. }
  split_and!; [done..| | |by rewrite signMessage_run].
  - unfold sendTransaction.
    rewrite bind_run, transactionRequestify_request. cbv zeta.
    unfold get_provider. rewrite Hp.
    by destruct (orTrue (send_estimateTxDependencies send_params)).
  - unfold simulateTransaction.
    rewrite bind_run, transactionRequestify_request. cbv zeta.
    unfold get_provider. rewrite Hp.
    by destruct (orTrue (est_estimateTxDependencies est_params)).
Qed.

End Submission.

(** * The scaffolding tool *)

Section ScaffoldFacts.

Import Scaffold.
Local Open Scope io_scope.

Context {F C : Type}.
Context `{!Node F} `{!Terminal C} `{!Toml} `{!Chalk}.
Implicit Types (h : Host F C) (o : ProgramsToInclude) (m : Program).

(** ** [processWorkspaceToml] and [writeEnvFile] *)

(** Tables. *)
Lemma getOwn_setOwn key v fields : getOwn key (setOwn key v fields) = Some v.
Proof.
  induction fields as [|[k old] others IH]; simpl.
  - by rewrite String.eqb_refl.
  - destruct (String.eqb k key) eqn:Heq; simpl; by rewrite Heq.
Qed.

Lemma getOwn_setOwn_ne key key' v fields :
  key' <> key -> getOwn key' (setOwn key v fields) = getOwn key' fields.
Proof.
  intros Hne. induction fields as [|[k old] others IH]; simpl.
  - by apply not_eq_sym, String.eqb_neq in Hne as ->.
  - destruct (String.eqb k key) eqn:Heq; simpl.
    + apply String.eqb_eq in Heq as ->.
      by apply not_eq_sym, String.eqb_neq in Hne as ->.
    + by rewrite IH.
Qed.

Lemma setOwn_same key v fields :
  getOwn key fields = Some v -> setOwn key v fields = fields.
Proof.
  induction fields as [|[k old] others IH]; simpl; [done|].
  destruct (String.eqb k key); [by intros [= ->]|].
  intros Hget. by rewrite IH.
Qed.

(** A document whose [workspace.members] is there. *)
Lemma members_inv parsed v :
  property "workspace" parsed ≫= property "members" = Some v ->
  exists fields workspace,
    parsed = VTable fields /\
    getOwn "workspace" fields = Some (VTable workspace) /\
    getOwn "members" workspace = Some v.
Proof.
  destruct parsed as [| |?|fields]; try done. simpl.
  destruct (getOwn "workspace" fields) as [[| |?|workspace]|] eqn:Hw; try done.
  simpl. intros Hm. by exists fields, workspace.
Qed.

(** The condition of the filter on the names it may meet. *)
Lemma holds_spec o name :
  holds o name = true <->
  (exists m, name = programName m /\ included o m = true) \/
  name ∈ objectPrototypeKeys.
Proof.
  unfold holds. split.
  - destruct (String.eqb name "contract") eqn:Hc.
    { apply String.eqb_eq in Hc as ->. left. by exists Contract. }
    destruct (String.eqb name "predicate") eqn:Hp.
    { apply String.eqb_eq in Hp as ->. left. by exists Predicate. }
    destruct (String.eqb name "script") eqn:Hs.
    { apply String.eqb_eq in Hs as ->. left. by exists Script. }
    intros (key & Hin & ->%String.eqb_eq)%existsb_exists. right.
    by apply list_elem_of_In.
  - intros [(m & -> & Hm)|Hin].
    + by destruct m.
    + unfold objectPrototypeKeys in Hin.
      repeat (apply elem_of_cons in Hin as [->|Hin]; [reflexivity|]).
      by apply elem_of_nil in Hin.
Qed.

Lemma filterMembers_None o items :
  (exists item, item ∈ items /\ toPropertyKey item = None) ->
  filterMembers o items = None.
Proof.
  intros (item & Hin & Hkey).
  induction items as [|first others IH]; [by apply elem_of_nil in Hin|].
  apply elem_of_cons in Hin as [<-|Hin]; simpl.
  - by rewrite Hkey.
  - rewrite (IH Hin). by destruct (toPropertyKey first).
Qed.

Lemma filterMembers_Some o items :
  (forall item, item ∈ items -> is_Some (toPropertyKey item)) ->
  exists kept,
    filterMembers o items = Some kept /\
    kept `sublist_of` items /\
    (forall item, item ∈ kept <->
       item ∈ items /\
       exists key, toPropertyKey item = Some key /\ holds o key = true) /\
    ((forall item, item ∈ items ->
        exists key, toPropertyKey item = Some key /\ holds o key = true) ->
     kept = items).
Proof.
  induction items as [|first others IH]; intros Hkeys.
  { exists []. split_and!; [done..| |done].
    intros item. split; [by intros ?%elem_of_nil|by intros [?%elem_of_nil _]]. }
  destruct IH as (kept & Hrun & Hsub & Hin & Hall).
  { intros item Hitem. apply Hkeys. by apply list_elem_of_further. }
  destruct (Hkeys first) as [key Hkey]; [by apply list_elem_of_here|].
  simpl. rewrite Hkey, Hrun.
  destruct (holds o key) eqn:Hholds.
  - exists (first :: kept). split_and!; [done|by apply sublist_skip| |].
    + intros item. rewrite !elem_of_cons, Hin. split.
      * intros [->|[Hitem Hkept]]; [|by auto]. split; [by left|by exists key].
      * intros [[->|Hitem] Hkept]; [by left|by right].
    + intros Hevery. f_equal. apply Hall. intros item Hitem.
      apply Hevery. by apply list_elem_of_further.
  - exists kept. split_and!; [done|by apply sublist_cons| |].
    + intros item. rewrite elem_of_cons, Hin. split.
      * intros [Hitem Hkept]. by auto.
      * intros [[->|Hitem] (key' & Hkey' & Hholds')]; [|by eauto].
        congruence.
    + intros Hevery.
      destruct (Hevery first) as (key' & Hkey' & Hholds');
        [by apply list_elem_of_here|congruence].
Qed.

(** What stops [processWorkspaceToml] is the parser or a type error. *)
Lemma processWorkspaceToml_raises contents o e :
  processWorkspaceToml contents o = Raised e -> fromBelow e.
Proof.
  unfold processWorkspaceToml, fromBelow.
  destruct (toml_parse contents) as [what|parsed]; simpl;
    [intros [= <-]; eauto|].
  destruct (property "workspace" parsed ≫= property "members")
    as [[| |items|]|]; try (intros [= <-]; by left).
  destruct (filterMembers o items) as [kept|]; [|intros [= <-]; by left].
  destruct (toml_stringify (withMembers parsed kept)) as [what|text]; simpl;
    [intros [= <-]; eauto|done].
Qed.

(** X9: [processWorkspaceToml] on the parsed document.  A text that does
    not parse gives the parser's failure.  A document without the table
    [workspace], or whose [workspace.members] is missing or not an array,
    is a type error, and so is a member that cannot be turned into a
    property key.  Otherwise the result is what [stringify] gives, or
    raises, on the document with [workspace.members] replaced and every
    other key as it was.  The members kept are in their old order, and a
    member is kept exactly when the property it names on
    [programsToInclude] is truthy: for a member that is a string, when it
    names an included program or a property that every object inherits,
    such as [constructor].  Nothing changes when every member is kept. *)
Theorem processWorkspaceToml_members fileContents o :
  match toml_parse fileContents with
  | inl what => processWorkspaceToml fileContents o = Raised (HostError what)
  | inr parsed =>
      match property "workspace" parsed ≫= property "members" with
      | Some (VArray items) =>
          ((exists item, item ∈ items /\ toPropertyKey item = None) ->
           processWorkspaceToml fileContents o = Raised TypeError) /\
          ((forall item, item ∈ items -> is_Some (toPropertyKey item)) ->
           exists kept,
             processWorkspaceToml fileContents o =
               imported (toml_stringify (withMembers parsed kept)) /\
             kept `sublist_of` items /\
             (forall item, item ∈ kept <->
                item ∈ items /\
                exists key, toPropertyKey item = Some key /\
                            holds o key = true) /\
             (forall name, VString name ∈ kept <->
                VString name ∈ items /\
                ((exists m, name = programName m /\ included o m = true) \/
                 name ∈ objectPrototypeKeys)) /\
             property "workspace" (withMembers parsed kept)
               ≫= property "members" = Some (VArray kept) /\
             (forall key, key <> "workspace" ->
                property key (withMembers parsed kept) = property key parsed) /\
             (forall key, key <> "members" ->
                property "workspace" (withMembers parsed kept) ≫= property key =
                property "workspace" parsed ≫= property key) /\
             ((forall item, item ∈ items ->
                 exists key, toPropertyKey item = Some key /\
                             holds o key = true) ->
              withMembers parsed kept = parsed))
      | _ => processWorkspaceToml fileContents o = Raised TypeError
      end
  end.
Proof.
  unfold processWorkspaceToml.
  destruct (toml_parse fileContents) as [what|parsed]; [done|]. simpl.
  destruct (property "workspace" parsed ≫= property "members")
    as [[| |items|]|] eqn:Hmembers; try done.
  split.
  { intros Hbad. by rewrite (filterMembers_None o items Hbad). }
  intros Hkeys.
  destruct (filterMembers_Some o items Hkeys)
    as (kept & -> & Hsub & Hin & Hall).
  destruct (members_inv parsed _ Hmembers)
    as (fields & workspace & -> & Hw & Hm).
  exists kept. split_and!; [done..| | | | |].
  - intros name. rewrite Hin, <- holds_spec. split.
    + by intros [Hitem (key & [= <-] & Hholds)].
    + intros [Hitem Hholds]. split; [done|]. by exists name.
  - simpl. rewrite Hw. simpl. rewrite getOwn_setOwn. simpl.
    by rewrite getOwn_setOwn.
  - intros key Hne. simpl. rewrite Hw. simpl. by apply getOwn_setOwn_ne.
  - intros key Hne. simpl. rewrite Hw. simpl. rewrite getOwn_setOwn. simpl.
    by apply getOwn_setOwn_ne.
  - intros Hevery. rewrite (Hall Hevery). simpl. rewrite Hw.
    rewrite (setOwn_same "members" (VArray items) workspace Hm).
    by rewrite (setOwn_same "workspace" (VTable workspace) fields Hw).
Qed.

(** X10: for an object whose keys were created in the order contract,
    predicate, script (as [promptForProgramsToInclude] creates them),
    [writeEnvFile] writes the three lines that the comment in its body
    announces, one flag per program, in that order and without a final
    newline; it makes that one call and no other. *)
Theorem writeEnvFile_contents envFilePath o h :
  ownKeys o = [Contract; Predicate; Script] ->
  let contents :=
    "NEXT_PUBLIC_HAS_CONTRACT=" +:+ showBool (contract o) +:+ newline +:+
    "NEXT_PUBLIC_HAS_PREDICATE=" +:+ showBool (predicate o) +:+ newline +:+
    "NEXT_PUBLIC_HAS_SCRIPT=" +:+ showBool (script o) in
  envFileContents o = contents /\
  calls (writeEnvFile envFilePath o h).2 =
    calls h ++ [WriteFileSync envFilePath contents].
Proof.
  intros Hkeys contents.
  assert (Hc : envFileContents o = contents).
  { unfold envFileContents, entries. rewrite Hkeys. subst contents.
    cbn [map included programName].
    by destruct (contract o), (predicate o), (script o). }
  split; [done|]. unfold writeEnvFile, call. cbv zeta. rewrite Hc.
  by destruct (perform _ _) as [failure disk'].
Qed.

(** ** Running tasks *)

Lemma andThen_run {A B} (t : IO F C A) (k : A -> IO F C B) h :
  andThen t k h =
  match t h with
  | (Done a, h') => k a h'
  | (Raised e, h') => (Raised e, h')
  end.
Proof. reflexivity. Qed.

Lemma andThen_assoc {A B D} (t : IO F C A) (k1 : A -> IO F C B)
    (k2 : B -> IO F C D) h :
  andThen (andThen t k1) k2 h = andThen t (fun a => andThen (k1 a) k2) h.
Proof. rewrite !andThen_run. by destruct (t h) as [[a|e] h']. Qed.

Lemma follows_ext {A} (t t' : IO F C A) h planned printed :
  t h = t' h -> follows t' h planned printed -> follows t h planned printed.
Proof. unfold follows. by intros ->. Qed.

Lemma followsSome_ext {A} (t t' : IO F C A) h planned printed good :
  t h = t' h ->
  followsSome t' h planned printed good -> followsSome t h planned printed good.
Proof. unfold followsSome, follows. by intros ->. Qed.

Lemma follows_call c h : follows (call c) h [c] [].
Proof.
  unfold follows, fromBelow, call.
  destruct (perform c (disk h)) as [[what|] disk'];
    simpl; exists [c]; rewrite ?app_nil_r; eauto 10.
Qed.

Lemma call_fail c h what disk' :
  perform c (disk h) = (Some what, disk') ->
  call c h =
  (Raised (HostError what),
   mkHost disk' (terminal h) (stdout h) (calls h ++ [c])).
Proof. unfold call. by intros ->. Qed.

Lemma call_ok c h disk' :
  perform c (disk h) = (None, disk') ->
  call c h = (Done tt, mkHost disk' (terminal h) (stdout h) (calls h ++ [c])).
Proof. unfold call. by intros ->. Qed.

(** One call, then the rest, which runs on the disk that the call
    left. *)
Lemma followsSome_call {A} c (k : IO F C A) h planned printed good :
  (forall h', disk h' = (perform c (disk h)).2 ->
     followsSome k h' planned printed good) ->
  followsSome (call c ;;; k) h (fun text => c :: planned text) printed good.
Proof.
  intros Hk. unfold followsSome, follows. rewrite andThen_run.
  destruct (perform c (disk h)) as [[what|] disk'] eqn:Hp.
  - rewrite (call_fail _ _ _ _ Hp). exists "". simpl. split; [|done].
    exists [c]. split_and!;
      [done|by apply prefix_cons, prefix_nil|done|done|right; eauto].
  - rewrite (call_ok _ _ _ Hp).
    set (h' := mkHost disk' (terminal h) (stdout h) (calls h ++ [c])).
    destruct (Hk h') as (text & (evs & Hcalls & Hpre & Hterm & Hend) & Hgood);
      [done|].
    exists text. split; [|done]. exists (c :: evs). split_and!.
    + by rewrite Hcalls; simpl; rewrite <- app_assoc.
    + by apply prefix_cons.
    + done.
    + destruct ((k h').1); [|done]. by destruct Hend as [-> Hout].
Qed.

Lemma followsSome_pure {A B} (a : A) (k : A -> IO F C B) h planned printed good :
  followsSome (k a) h planned printed good ->
  followsSome (andThen (pure a) k) h planned printed good.
Proof. done. Qed.

Lemma followsSome_call2 {A} c1 c2 (k : IO F C A) h planned printed good :
  (forall h', disk h' = (perform c2 (perform c1 (disk h)).2).2 ->
     followsSome k h' planned printed good) ->
  followsSome ((call c1 ;;; call c2) ;;; k) h
    (fun text => c1 :: c2 :: planned text) printed good.
Proof.
  intros Hk. eapply followsSome_ext; [apply andThen_assoc|cbv beta].
  apply (followsSome_call c1 (call c2 ;;; k) h (fun text => c2 :: planned text)).
  intros h1 Hd1. apply followsSome_call. intros h2 Hd2. apply Hk.
  by rewrite Hd2, Hd1.
Qed.

Lemma log_andThen {A} data (k : IO F C A) h :
  andThen (log data) (fun _ => k) h =
  k (mkHost (disk h) (terminal h)
       (stdout h ++ [String.concat " " data +:+ newline]) (calls h)).
Proof. reflexivity. Qed.

Lemma report_run projectPath packageManager h :
  report projectPath packageManager h =
  (Done tt,
   mkHost (disk h) (terminal h)
     (stdout h ++ reportLines projectPath packageManager) (calls h)).
Proof.
  unfold report.
  do 16 (rewrite log_andThen; cbn [disk terminal stdout calls]).
  unfold log. cbn [disk terminal stdout calls].
  unfold reportLines. cbn [map]. by rewrite <- !app_assoc.
Qed.

Lemma followsSome_report projectPath packageManager h good :
  (forall text, good text) ->
  followsSome (report projectPath packageManager) h (fun _ => [])
    (reportLines projectPath packageManager) good.
Proof.
  intros Hgood. exists "". split; [|done]. exists [].
  rewrite report_run. simpl. by rewrite app_nil_r.
Qed.

Lemma followsSome_install path projectPath packageManager (install : bool) h good :
  (forall text, good text) ->
  followsSome
    ((if install
      then call (Chdir path) ;;;
           call (ExecSync (show packageManager +:+ " install"))
      else pure tt) ;;;
     report projectPath packageManager) h
    (fun _ => installing path packageManager install)
    (reportLines projectPath packageManager) good.
Proof.
  intros Hgood. unfold installing. destruct install.
  - apply (followsSome_call2 _ _ _ _ (fun _ => [])).
    intros h' _. by apply followsSome_report.
  - apply followsSome_pure. by apply followsSome_report.
Qed.

(** Reading [Forc.toml], trimming it and writing it back, then the
    rest. *)
Lemma followsSome_rewrite path projectPath packageManager (install : bool) o h :
  let forcTomlPath := join [path; "sway-programs"; "Forc.toml"] in
  followsSome
    (forcTomlContents <- readFile forcTomlPath ;;
     newForcTomlContents <-
       evaluate (processWorkspaceToml forcTomlContents o) ;;
     call (WriteFileSync forcTomlPath newForcTomlContents) ;;;
     (if install
      then call (Chdir path) ;;;
           call (ExecSync (show packageManager +:+ " install"))
      else pure tt) ;;;
     report projectPath packageManager) h
    (fun text =>
       WriteFileSync forcTomlPath text ::
       installing path packageManager install)
    (reportLines projectPath packageManager)
    (trimmed o forcTomlPath (disk h)).
Proof.
  intros forcTomlPath.
  assert (Hstop : forall e, fromBelow e ->
    followsSome
      (fun h0 : Host F C => (@Raised unit e, h0)) h
      (fun text =>
         WriteFileSync forcTomlPath text ::
         installing path packageManager install)
      (reportLines projectPath packageManager)
      (trimmed o forcTomlPath (disk h))).
  { intros e He. exists "". split; [|done]. exists [].
    simpl. rewrite app_nil_r.
    split_and!; [done|apply prefix_nil|done|done|done]. }
  unfold readFile, evaluate.
  destruct (readFileSync forcTomlPath (disk h)) as [what|contents] eqn:Hread.
  - eapply followsSome_ext; [|apply (Hstop (HostError what)); right; eauto].
    rewrite andThen_run. by rewrite Hread.
  - destruct (processWorkspaceToml contents o) as [text|e] eqn:Hprocess.
    + eapply followsSome_ext.
      { rewrite andThen_run, Hread. rewrite andThen_run, Hprocess.
        reflexivity. }
      destruct (followsSome_call (WriteFileSync forcTomlPath text)
                  ((if install
                    then call (Chdir path) ;;;
                         call (ExecSync (show packageManager +:+ " install"))
                    else pure tt) ;;;
                   report projectPath packageManager) h
                  (fun _ => installing path packageManager install)
                  (reportLines projectPath packageManager) (fun _ => True))
        as (_ & Hrun & _).
      { intros h' _. by apply followsSome_install. }
      exists text. split; [done|]. intros _ _. by exists contents.
    + eapply followsSome_ext;
        [|apply (Hstop e); by apply (processWorkspaceToml_raises contents o)].
      rewrite andThen_run, Hread. by rewrite andThen_run, Hprocess.
Qed.

(** A run whose three inputs are resolved to a fresh path, a package
    manager and a selection with a program in it. *)
Lemma resolved_run explicitProjectPath explicitPackageManger install
    explicitProgramsToInclude h path packageManager o h1 h2 h3 :
  (if truthy explicitProjectPath then pure explicitProjectPath
   else promptForProjectPath) h = (Done (Some path), h1) ->
  truthy (Some path) = true ->
  existsSync path (disk h1) = false ->
  (if truthy explicitPackageManger then pure explicitPackageManger
   else promptForPackageManager) h1 = (Done packageManager, h2) ->
  match explicitProgramsToInclude with
  | Some given => pure given
  | None => promptForProgramsToInclude
  end h2 = (Done o, h3) ->
  contract o || predicate o || script o = true ->
  followsSome
    (fun _ =>
       runScaffoldCli explicitProjectPath explicitPackageManger install
         explicitProgramsToInclude h) h3
    (plan path packageManager (orTrue install) o)
    (reportLines (Some path) packageManager)
    (trimmed o (join [path; "sway-programs"; "Forc.toml"])
       (performAll (copying path o ++ removals path o) (disk h3))).
Proof.
  intros Hpath Htruthy Hnew Hpm Hprograms Hsome.
  eapply followsSome_ext.
  { unfold runScaffoldCli.
    rewrite andThen_run, Hpath. rewrite andThen_run. cbn [exists_].
    rewrite Hnew, Htruthy. cbn [negb]. cbv zeta.
    rewrite andThen_run, Hpm. rewrite andThen_run, Hprograms.
    replace (negb (contract o) && negb (predicate o) && negb (script o))
      with false
      by (by destruct (contract o), (predicate o), (script o)).
    cbn [show]. reflexivity. }
  unfold plan, copying, removals, writeEnvFile, performAll. cbv zeta.
  cbn [app].
  do 5 (apply followsSome_call; intros ? ?).
  destruct (contract o); cbn [negb app];
    [apply followsSome_pure|apply followsSome_call; intros ? ?];
  (destruct (predicate o); cbn [negb app];
    [apply followsSome_pure|apply followsSome_call2; intros ? ?];
   (destruct (script o); cbn [negb app];
     [apply followsSome_pure|apply followsSome_call2; intros ? ?];
    (lazymatch goal with
     | |- followsSome _ ?hN _ _ (trimmed _ _ ?d) =>
         replace d with (disk hN); [apply followsSome_rewrite|]
     end;
     cbn [fold_left];
     repeat match goal with
            | Hd : disk _ = _ |- _ => rewrite Hd; clear Hd
            end;
     reflexivity))).
Qed.

Lemma truthy_Some text : text <> "" -> truthy (Some text) = true.
Proof. intros Hne. unfold truthy. by apply negb_true_iff, String.eqb_neq. Qed.

Lemma explicit_follows path packageManager install o h :
  path <> "" -> packageManager <> "" ->
  existsSync path (disk h) = false ->
  contract o || predicate o || script o = true ->
  followsSome
    (runScaffoldCli (Some path) (Some packageManager) install (Some o)) h
    (plan path (Some packageManager) (orTrue install) o)
    (reportLines (Some path) (Some packageManager))
    (trimmed o (join [path; "sway-programs"; "Forc.toml"])
       (performAll (copying path o ++ removals path o) (disk h))).
Proof.
  intros Hpath%truthy_Some Hpm%truthy_Some Hnew Hsome.
  apply (resolved_run (Some path) (Some packageManager) install (Some o)
           h path (Some packageManager) o h h h); try done.
  - by rewrite Hpath.
  - by rewrite Hpm.
Qed.

(** X13: a run with explicit arguments, a project path that does not
    exist yet and at least one program.  It asks nothing on the terminal.
    Its calls are a prefix of: create the directory, copy the template,
    rename the two dot files, write the environment file, remove what was
    not asked for, rewrite [Forc.toml], install.  A run that returns has
    made all of them; what it wrote back to [Forc.toml] is what
    [processWorkspaceToml] makes of the contents that the file had once
    the template was copied and trimmed; and [log] has written the closing
    messages.  A run that fails was stopped by the host or by a type
    error, never by an [Error] of the tool, and [log] has written
    nothing. *)
Theorem scaffold_run path packageManager install o h :
  path <> "" -> packageManager <> "" ->
  existsSync path (disk h) = false ->
  contract o || predicate o || script o = true ->
  let out :=
    runScaffoldCli (Some path) (Some packageManager) install (Some o) h in
  exists evs newToml,
    calls out.2 = calls h ++ evs /\
    evs `prefix_of` plan path (Some packageManager) (orTrue install) o newToml /\
    terminal out.2 = terminal h /\
    match out.1 with
    | Done _ =>
        evs = plan path (Some packageManager) (orTrue install) o newToml /\
        stdout out.2 =
          stdout h ++ reportLines (Some path) (Some packageManager) /\
        exists contents,
          readFileSync (join [path; "sway-programs"; "Forc.toml"])
            (performAll (copying path o ++ removals path o) (disk h)) =
            inr contents /\
          processWorkspaceToml contents o = Done newToml
    | Raised e =>
        stdout out.2 = stdout h /\
        (e = TypeError \/ exists what, e = HostError what)
    end.
Proof.
  intros Hpath Hpm Hnew Hsome out.
  destruct (explicit_follows path packageManager install o h Hpath Hpm Hnew Hsome)
    as (newToml & (evs & Hcalls & Hpre & Hterm & Hend) & Hgood).
  exists evs, newToml. split_and!; [done..|].
  fold out in Hend, Hgood. destruct (out.1) as [[]|e]; [|done].
  destruct Hend as [-> Hout]. split_and!; [done..|]. by apply (Hgood tt).
Qed.

(** ** What the plan holds *)

Ltac elem_cases H :=
  repeat (apply elem_of_cons in H as [H|H]; [try discriminate H|]);
  try (apply elem_of_nil in H; destruct H).

Lemma removals_fmap path o :
  removals path o =
  (if contract o then []
   else (fun q => RmSync q true) <$> programPaths path Contract) ++
  (if predicate o then []
   else (fun q => RmSync q true) <$> programPaths path Predicate) ++
  (if script o then []
   else (fun q => RmSync q true) <$> programPaths path Script).
Proof. reflexivity. Qed.

(** The removals are those of the paths of the programs left out. *)
Lemma elem_of_removals path o c :
  c ∈ removals path o <->
  exists m q, included o m = false /\ q ∈ programPaths path m /\
              c = RmSync q true.
Proof.
  rewrite removals_fmap, !elem_of_app. split.
  - intros [Hin|[Hin|Hin]];
      [exists Contract|exists Predicate|exists Script]; cbn [included].
    + destruct (contract o); [by apply elem_of_nil in Hin|].
      apply list_elem_of_fmap in Hin as (q & -> & Hq). by exists q.
    + destruct (predicate o); [by apply elem_of_nil in Hin|].
      apply list_elem_of_fmap in Hin as (q & -> & Hq). by exists q.
    + destruct (script o); [by apply elem_of_nil in Hin|].
      apply list_elem_of_fmap in Hin as (q & -> & Hq). by exists q.
  - intros (m & q & Hm & Hq & ->).
    destruct m; cbn [included] in Hm; rewrite Hm;
      [left|right; left|right; right];
      by apply (list_elem_of_fmap_2 (fun q => RmSync q true)).
Qed.

Lemma elem_of_plan path packageManager install o newToml c :
  c ∈ plan path packageManager install o newToml <->
  c ∈ copying path o \/ c ∈ removals path o \/
  c = WriteFileSync (join [path; "sway-programs"; "Forc.toml"]) newToml \/
  c ∈ installing path packageManager install.
Proof.
  unfold plan. by rewrite !elem_of_app, list_elem_of_singleton.
Qed.

Lemma elem_of_plan_RmSync path packageManager install o newToml q recursive :
  RmSync q recursive ∈ plan path packageManager install o newToml <->
  recursive = true /\
  exists m, included o m = false /\ q ∈ programPaths path m.
Proof.
  rewrite elem_of_plan. split.
  - intros [Hin|[Hin|[Hin|Hin]]].
    + unfold copying in Hin. elem_cases Hin.
    + apply elem_of_removals in Hin as (m & q' & Hm & Hq & [= -> ->]). eauto.
    + discriminate Hin.
    + unfold installing in Hin. destruct install; elem_cases Hin.
  - intros (-> & m & Hm & Hq). right; left. apply elem_of_removals. eauto.
Qed.

Lemma programPaths_disjoint path m m' q :
  NoDup (programPaths path Contract ++ programPaths path Predicate ++
         programPaths path Script) ->
  q ∈ programPaths path m -> q ∈ programPaths path m' -> m = m'.
Proof.
  intros (_ & Hcp & (_ & Hps & _)%NoDup_app)%NoDup_app Hm Hm'.
  destruct m, m'; try done; exfalso;
    first [ by apply (Hcp q); [|apply elem_of_app; auto]
          | by apply (Hps q) ].
Qed.

(** X14: in a run with explicit arguments nothing of an included program
    is ever removed, whether the run returns or fails on the way; and a
    run that returns has removed, recursively, every path of every program
    that was left out.  (The paths of the three programs are taken to be
    different from each other.) *)
Theorem only_excluded_removed path packageManager install o h :
  path <> "" -> packageManager <> "" ->
  existsSync path (disk h) = false ->
  contract o || predicate o || script o = true ->
  NoDup (programPaths path Contract ++ programPaths path Predicate ++
         programPaths path Script) ->
  let out :=
    runScaffoldCli (Some path) (Some packageManager) install (Some o) h in
  exists evs,
    calls out.2 = calls h ++ evs /\
    (forall m q recursive,
       included o m = true -> q ∈ programPaths path m ->
       RmSync q recursive ∉ evs) /\
    (forall a m q,
       out.1 = Done a -> included o m = false -> q ∈ programPaths path m ->
       RmSync q true ∈ evs).
Proof.
  intros Hpath Hpm Hnew Hsome Hdup out.
  destruct (explicit_follows path packageManager install o h Hpath Hpm Hnew Hsome)
    as (newToml & (evs & Hcalls & Hpre & Hterm & Hend) & Hgood).
  exists evs. split_and!; [done|..].
  - intros m q recursive Hm Hq Hin.
    assert (Hplan : RmSync q recursive ∈
              plan path (Some packageManager) (orTrue install) o newToml).
    { destruct Hpre as [k ->]. apply elem_of_app. auto. }
    apply elem_of_plan_RmSync in Hplan as (_ & m' & Hm' & Hq').
    rewrite (programPaths_disjoint path m m' q Hdup Hq Hq') in Hm. congruence.
  - intros a m q Hdone Hm Hq. fold out in Hend. rewrite Hdone in Hend.
    destruct Hend as [-> _]. apply elem_of_plan_RmSync. eauto.
Qed.

Lemma prefix_with_last {A} (evs front : list A) x :
  evs `prefix_of` front ++ [x] -> x ∈ evs -> x ∉ front -> evs = front ++ [x].
Proof.
  intros [k Hk] Hin Hnot. destruct k as [|y k _] using rev_ind.
  - by rewrite app_nil_r in Hk.
  - rewrite app_assoc in Hk. apply app_inj_tail in Hk as [-> _].
    exfalso. apply Hnot, elem_of_app. auto.
Qed.

(** X15: the dependencies are installed last and only on request.  In a
    run with explicit arguments a child process is started only when
    [shouldInstallDeps] is not [false]; its command is the package manager
    followed by [install]; by then every other call of the run has been
    made, the change into the project directory just before it.  The
    working directory is changed to nothing but the project path. *)
Theorem install_comes_last path packageManager install o h :
  path <> "" -> packageManager <> "" ->
  existsSync path (disk h) = false ->
  contract o || predicate o || script o = true ->
  let out :=
    runScaffoldCli (Some path) (Some packageManager) install (Some o) h in
  exists evs newToml,
    calls out.2 = calls h ++ evs /\
    (forall command,
       ExecSync command ∈ evs ->
       orTrue install = true /\
       command = packageManager +:+ " install" /\
       evs =
         copying path o ++ removals path o ++
         [WriteFileSync (join [path; "sway-programs"; "Forc.toml"]) newToml;
          Chdir path; ExecSync command]) /\
    (forall directory,
       Chdir directory ∈ evs -> orTrue install = true /\ directory = path).
Proof.
  intros Hpath Hpm Hnew Hsome out.
  destruct (explicit_follows path packageManager install o h Hpath Hpm Hnew Hsome)
    as (newToml & (evs & Hcalls & Hpre & Hterm & Hend) & Hgood).
  exists evs, newToml. split_and!; [done|..].
  - intros command Hin.
    assert (Hplan : ExecSync command ∈
              plan path (Some packageManager) (orTrue install) o newToml).
    { destruct Hpre as [k ->]. apply elem_of_app. auto. }
    apply elem_of_plan in Hplan as [Hc|[Hc|[Hc|Hc]]].
    + unfold copying in Hc. elem_cases Hc.
    + by apply elem_of_removals in Hc as (m & q & _ & _ & [=]).
    + discriminate Hc.
    + unfold installing in Hc.
      destruct (orTrue install) eqn:Hinstall; elem_cases Hc.
      injection Hc as ->. cbn [show]. split_and!; [done..|].
      set (written :=
             WriteFileSync (join [path; "sway-programs"; "Forc.toml"]) newToml).
      assert (Hfull :
        plan path (Some packageManager) true o newToml =
        (copying path o ++ removals path o ++ [written; Chdir path]) ++
        [ExecSync (packageManager +:+ " install")]).
      { unfold plan, installing. cbn [show]. by rewrite <- !app_assoc. }
      rewrite Hfull in Hpre.
      transitivity
        ((copying path o ++ removals path o ++ [written; Chdir path]) ++
         [ExecSync (packageManager +:+ " install")]);
        [|by rewrite <- !app_assoc].
      apply prefix_with_last; [done..|].
      rewrite !elem_of_app. intros [Hc|[Hc|Hc]].
      * unfold copying in Hc. elem_cases Hc.
      * by apply elem_of_removals in Hc as (m & q & _ & _ & [=]).
      * elem_cases Hc.
  - intros directory Hin.
    assert (Hplan : Chdir directory ∈
              plan path (Some packageManager) (orTrue install) o newToml).
    { destruct Hpre as [k ->]. apply elem_of_app. auto. }
    apply elem_of_plan in Hplan as [Hc|[Hc|[Hc|Hc]]].
    + unfold copying in Hc. elem_cases Hc.
    + by apply elem_of_removals in Hc as (m & q & _ & _ & [=]).
    + discriminate Hc.
    + unfold installing in Hc.
      destruct (orTrue install); elem_cases Hc. by injection Hc as ->.
Qed.

(** ** Validation and prompts *)

(** The resolution of the project path and of the package manager: an
    explicit truthy argument is taken as it is, otherwise the terminal is
    asked; either way only the terminal may have changed. *)
Lemma resolve_path explicitProjectPath h :
  exists projectPath h1,
    (if truthy explicitProjectPath then pure explicitProjectPath
     else promptForProjectPath) h = (Done projectPath, h1) /\
    disk h1 = disk h /\ stdout h1 = stdout h /\ calls h1 = calls h.
Proof.
  destruct (truthy explicitProjectPath); [by eexists _, _|].
  unfold promptForProjectPath.
  destruct (prompts_text _ _ (terminal h)) as [answer c]. by eexists _, _.
Qed.

Lemma resolve_manager explicitPackageManger h :
  exists packageManager h1,
    (if truthy explicitPackageManger then pure explicitPackageManger
     else promptForPackageManager) h = (Done packageManager, h1) /\
    disk h1 = disk h /\ stdout h1 = stdout h /\ calls h1 = calls h.
Proof.
  destruct (truthy explicitPackageManger); [by eexists _, _|].
  unfold promptForPackageManager.
  destruct (prompts_select _ _ (terminal h)) as [answer c]. by eexists _, _.
Qed.

Lemma resolve_programs explicitProgramsToInclude h :
  exists res h1,
    match explicitProgramsToInclude with
    | Some given => pure given
    | None => promptForProgramsToInclude
    end h = (res, h1) /\
    disk h1 = disk h /\ stdout h1 = stdout h /\ calls h1 = calls h /\
    (res = Raised TypeError \/ exists o, res = Done o).
Proof.
  destruct explicitProgramsToInclude as [given|]; [by eexists _, _; eauto 8|].
  unfold promptForProgramsToInclude.
  destruct (prompts_multiselect _ _ (terminal h)) as [[selected|] c];
    eexists _, _; eauto 8.
Qed.

(** X11: whatever the arguments and the answers on the terminal, when the
    tool rejects its input with an error of its own, nothing has been
    created, changed or printed: no call on the host was made.  The error
    is one of three: the project path exists already, there is no project
    path, or no program was selected. *)
Theorem rejection_touches_nothing explicitProjectPath explicitPackageManger
    install explicitProgramsToInclude h message :
  let out :=
    runScaffoldCli explicitProjectPath explicitPackageManger install
      explicitProgramsToInclude h in
  out.1 = Raised (JsError message) ->
  disk out.2 = disk h /\ calls out.2 = calls h /\ stdout out.2 = stdout h /\
  ((exists path,
      existsSync path (disk h) = true /\
      message = "A folder already exists at " +:+ path +:+
                ". Please choose a different project name.") \/
   message = "Please specify a project directory." \/
   message = "You must include at least one Sway program.").
Proof.
  intros out. subst out.
  destruct (resolve_path explicitProjectPath h)
    as (projectPath & h1 & Hpath & Hd1 & Hs1 & Hc1).
  destruct (match projectPath with
            | Some text => existsSync text (disk h1)
            | None => false
            end) eqn:Hfound.
  { unfold runScaffoldCli.
    rewrite andThen_run, Hpath. rewrite andThen_run. cbn [exists_].
    rewrite Hfound. cbn [raise fst snd]. intros [= <-].
    split_and!; [done..|]. left.
    destruct projectPath as [path|]; [|done].
    exists path. by rewrite <- Hd1. }
  destruct (truthy projectPath) eqn:Htruthy.
  2: { unfold runScaffoldCli.
       rewrite andThen_run, Hpath. rewrite andThen_run. cbn [exists_].
       rewrite Hfound, Htruthy. cbn [negb raise fst snd]. intros [= <-].
       split_and!; [done..|]. auto. }
  destruct projectPath as [path|]; [|done].
  destruct (resolve_manager explicitPackageManger h1)
    as (packageManager & h2 & Hpm & Hd2 & Hs2 & Hc2).
  destruct (resolve_programs explicitProgramsToInclude h2)
    as (res & h3 & Hprograms & Hd3 & Hs3 & Hc3 & Hres).
  destruct Hres as [-> | [o ->]].
  { unfold runScaffoldCli.
    rewrite andThen_run, Hpath. rewrite andThen_run. cbn [exists_].
    rewrite Hfound, Htruthy. cbn [negb]. cbv zeta.
    rewrite andThen_run, Hpm. rewrite andThen_run, Hprograms. done. }
  destruct (contract o || predicate o || script o) eqn:Hsome.
  - destruct (resolved_run explicitProjectPath explicitPackageManger install
                explicitProgramsToInclude h path packageManager o h1 h2 h3
                Hpath Htruthy Hfound Hpm Hprograms Hsome)
      as (newToml & (evs & _ & _ & _ & Hend) & _).
    cbv beta in Hend. intros Hout. rewrite Hout in Hend.
    by destruct Hend as (_ & [[=]|(what & [=])]).
  - unfold runScaffoldCli.
    rewrite andThen_run, Hpath. rewrite andThen_run. cbn [exists_].
    rewrite Hfound, Htruthy. cbn [negb]. cbv zeta.
    rewrite andThen_run, Hpm. rewrite andThen_run, Hprograms.
    replace (negb (contract o) && negb (predicate o) && negb (script o))
      with true
      by (by destruct (contract o), (predicate o), (script o)).
    cbn [raise fst snd]. intros [= <-].
    split_and!; [congruence..|]. auto.
Qed.

(** X12: a project path that exists is refused at once.  The run ends
    with the error that names the path; the host is left exactly as it
    was, and neither the package manager nor the programs are asked
    for. *)
Theorem existing_folder_refused path explicitPackageManger install
    explicitProgramsToInclude h :
  path <> "" ->
  existsSync path (disk h) = true ->
  runScaffoldCli (Some path) explicitPackageManger install
    explicitProgramsToInclude h =
  (Raised (JsError ("A folder already exists at " +:+ path +:+
                    ". Please choose a different project name.")), h).
Proof.
  intros Hpath%truthy_Some Hfound. unfold runScaffoldCli.
  rewrite Hpath, andThen_run. cbn [pure]. rewrite andThen_run. cbn [exists_].
  by rewrite Hfound.
Qed.

(** X16: the answers given on the terminal are used as the arguments
    would be.  When no argument is given, the project name answered is not
    empty and does not exist yet, and the package manager answered is not
    empty, the run is the run with the three answers as explicit
    arguments, started after the three prompts. *)
Theorem answers_as_arguments install h path c1 packageManager c2 selected c3 :
  prompts_text "What is the name of your project?" "my-fuel-project"
    (terminal h) = (Some path, c1) ->
  path <> "" ->
  existsSync path (disk h) = false ->
  prompts_select "Select a package manager" [("pnpm", "pnpm"); ("npm", "npm")]
    c1 = (Some packageManager, c2) ->
  packageManager <> "" ->
  prompts_multiselect "Which Sway programs do you want?"
    [("Contract", "contract", true); ("Predicate", "predicate", false);
     ("Script", "script", false)] c2 = (Some selected, c3) ->
  runScaffoldCli None None install None h =
  runScaffoldCli (Some path) (Some packageManager) install
    (Some (programsOf selected)) (mkHost (disk h) c3 (stdout h) (calls h)).
Proof.
  intros Hname Hpath%truthy_Some Hnew Hselect Hpm%truthy_Some Hmulti.
  unfold runScaffoldCli. rewrite Hpath, Hpm. cbn [truthy].
  rewrite !andThen_run. unfold promptForProjectPath. rewrite Hname.
  cbn [pure]. rewrite !andThen_run. cbn [exists_ disk].
  rewrite Hnew, Hpath. cbn [negb]. cbv zeta.
  rewrite !andThen_run. unfold promptForPackageManager. cbn [terminal].
  rewrite Hselect. cbn [pure]. rewrite !andThen_run.
  unfold promptForProgramsToInclude. cbn [terminal]. rewrite Hmulti.
  reflexivity.
Qed.

End ScaffoldFacts.

(** * The methods on explicit inputs *)

Import Toy.

(** A submission with the default options: estimation, population,
    submission; the request object carries the signature afterwards. *)
Example sendTransaction_default :
  sendTransaction wallet (LikeRequest 0) noSendParams (world owned) =
  (Ok "response",
   mkWorld [set_witnesses ["sig:k1:tx:meta"] owned] 2
     [EvEstimateTxDependencies 0; EvGetChain; EvSign "tx:meta";
      EvUpdateWitnessByOwner 0 "addr:pub:k1" "sig:k1:tx:meta";
      EvSendTransaction 0 (mkSendParams (Some false) None)]).
Proof. reflexivity. Qed.

(** A simulation with estimation switched off. *)
Example simulateTransaction_opt_out :
  simulateTransaction wallet (LikeRequest 0) (mkEstimateParams (Some false))
    (world owned) =
  (Ok "result",
   mkWorld [set_witnesses ["sig:k1:tx:meta"] owned] 1
     [EvGetChain; EvSign "tx:meta";
      EvUpdateWitnessByOwner 0 "addr:pub:k1" "sig:k1:tx:meta";
      EvCall 0 (mkCallParams (Some true) (Some false))]).
Proof. reflexivity. Qed.

(** A plain object is populated as a new request object. *)
Example populate_plain :
  populateTransactionWitnessesSignature wallet (LikePlain "abc") (world owned) =
  (Err UnknownOwnerError,
   mkWorld [owned; mkTransactionRequest [] [] "abc" []] 0
     [EvGetChain; EvSign "tx:abc";
      EvUpdateWitnessByOwner 1 "addr:pub:k1" "sig:k1:tx:abc"]).
Proof. reflexivity. Qed.

(** The slot is created when the witness list is too short. *)
Example writeSlot_grows : writeSlot ["a"] 3 "s" = ["a"; "0x"; "0x"; "s"].
Proof. reflexivity. Qed.

(** C2 on the wallet [wallet] and a request with one input of its own:
    the population returns the reference it was given, and the object
    behind it holds the signature in slot 0. *)
Lemma populate_signs_then_inserts_witness :
  (populateTransactionWitnessesSignature wallet (LikeRequest 0)
     (world owned)).1 = Ok 0 /\
  heap (populateTransactionWitnessesSignature wallet (LikeRequest 0)
          (world owned)).2 !! 0 =
  Some (set_witnesses ["sig:k1:tx:meta"] owned).
Proof.
  destruct (populate_signs_then_inserts wallet (LikeRequest 0) (world owned)
              0 owned "sig:k1:tx:meta"
              (set_witnesses ["sig:k1:tx:meta"] owned))
    as (Hres & _ & Hobj & _); [reflexivity..|].
  exact (conj Hres Hobj).
Defined.

Lemma foreign_not_owned :
  forall i, i ∈ inputs foreign -> owner i <> Some (address wallet).
Proof.
  intros i Hin. apply list_elem_of_singleton in Hin as ->. discriminate.
Qed.

(** C4 on a wallet with a provider and a request whose only input belongs
    to someone else: the witness insertion is reached and rejects. *)
Lemma populate_unknown_owner_witness :
  (populateTransactionWitnessesSignature wallet (LikeRequest 0)
     (world foreign)).1 = Err UnknownOwnerError.
Proof.
  destruct (populate_unknown_owner wallet (LikeRequest 0) (world foreign)
              0 foreign)
    as (_ & _ & Hsigned & _);
    [reflexivity | reflexivity | exact foreign_not_owned |].
  destruct (Hsigned "sig:k1:tx:meta") as [Herr _]; [reflexivity|].
  exact Herr.
Defined.

(** C4 as stated fails: the same request, none of whose inputs the wallet
    owns, on a wallet that was built without a provider.  The population
    fails in [signTransaction], before the witness insertion is reached,
    and the error is not [UnknownOwnerError]. *)
Lemma populate_unknown_owner_offline :
  (forall i, i ∈ inputs foreign -> owner i <> Some (address offline)) /\
  (populateTransactionWitnessesSignature offline (LikeRequest 0)
     (world foreign)).1 = Err MissingProvider /\
  (populateTransactionWitnessesSignature offline (LikeRequest 0)
     (world foreign)).1 <> Err UnknownOwnerError.
Proof.
  split; [exact foreign_not_owned|]. split; [reflexivity|discriminate].
Qed.

(** C5 as stated fails: the getter returns the key the wallet was built
    from, and [encrypt] hands that key to the keystore. *)
Lemma privateKey_getter_returns_key :
  new_BaseWalletUnlocked "k1" (Some theProvider) = Ok wallet /\
  privateKey wallet = "k1" /\
  trace (encrypt wallet "password" (world owned)).2 =
  [EvEncryptKeystoreWallet "k1" "addr:pub:k1" "password"].
Proof. repeat split. Qed.

(** C5, amended, on the wallet built from the key [k1]. *)
Lemma private_key_exposure_witness :
  new_BaseWalletUnlocked "k1" (Some theProvider) = Ok wallet /\
  privateKey wallet = "k1".
Proof.
  split; [reflexivity|].
  destruct (private_key_exposure "k1" (Some theProvider) wallet)
    as (Hkey & _); [reflexivity|].
  exact Hkey.
Defined.

Lemma toy_sign_injective d1 d2 s :
  Signer_sign (signer wallet) d1 = Ok s ->
  Signer_sign (signer wallet) d2 = Ok s -> d1 = d2.
Proof. intros Hs1 Hs2. vm_compute in Hs1, Hs2. congruence. Qed.

(** With the toy hasher and codec, whose digests are tagged, the signature
    of the message [hello] differs from that of the request. *)
Lemma signatures_follow_digests_witness :
  (signMessage wallet "hello" (world owned)).1 <>
  (signTransaction wallet (LikeRequest 0) (world owned)).1.
Proof.
  destruct (signatures_follow_digests wallet "hello" 0 owned 7%Z (world owned))
    as [_ Hdiff]; [reflexivity | by eexists | reflexivity |].
  apply Hdiff; [exact toy_sign_injective | discriminate | reflexivity].
Defined.

(** ** Submissions on explicit inputs *)

(** X3 on the toy wallet: the provider answers, and the request it was
    handed carries the signature. *)
Lemma sendTransaction_submits_signed_witness :
  sendTransaction wallet (LikeRequest 0) noSendParams (world owned) =
  (Ok "response",
   mkWorld [set_witnesses ["sig:k1:tx:meta"] owned] 2
     [EvEstimateTxDependencies 0; EvGetChain; EvSign "tx:meta";
      EvUpdateWitnessByOwner 0 "addr:pub:k1" "sig:k1:tx:meta";
      EvSendTransaction 0 (mkSendParams (Some false) None)]).
Proof.
  rewrite (sendTransaction_submits_signed wallet 0 noSendParams (world owned)
             owned theProvider 7%Z "sig:k1:tx:meta"
             (set_witnesses ["sig:k1:tx:meta"] owned));
    reflexivity.
Defined.

(** X4 on the toy wallet, with the estimation switched off. *)
Lemma simulateTransaction_calls_signed_witness :
  simulateTransaction wallet (LikeRequest 0) (mkEstimateParams (Some false))
    (world owned) =
  (Ok "result",
   mkWorld [set_witnesses ["sig:k1:tx:meta"] owned] 1
     [EvGetChain; EvSign "tx:meta";
      EvUpdateWitnessByOwner 0 "addr:pub:k1" "sig:k1:tx:meta";
      EvCall 0 (mkCallParams (Some true) (Some false))]).
Proof.
  rewrite (simulateTransaction_calls_signed wallet 0
             (mkEstimateParams (Some false)) (world owned)
             owned theProvider 7%Z "sig:k1:tx:meta"
             (set_witnesses ["sig:k1:tx:meta"] owned));
    reflexivity.
Defined.

(** X5 on a provider whose estimation fails: nothing is signed. *)
Lemma estimation_failure_stops_witness :
  sendTransaction (Network0 := ToyStarved.network) wallet (LikeRequest 0)
    noSendParams (world owned) =
  (Err (CollaboratorError "not enough resources"),
   mkWorld [owned] 1 [EvEstimateTxDependencies 0]).
Proof.
  destruct (estimation_failure_stops (Network0 := ToyStarved.network)
              wallet 0 noSendParams noEstimateParams (world owned) owned
              theProvider (CollaboratorError "not enough resources"))
    as [Hsend _]; [reflexivity..|].
  exact (Hsend eq_refl).
Defined.

(** X6 on a request the wallet owns no input of: the submission fails as
    the population does. *)
Lemma population_failure_propagates_witness :
  (sendTransaction wallet (LikeRequest 0) (mkSendParams (Some false) None)
     (world foreign)).1 = Err UnknownOwnerError.
Proof.
  destruct (population_failure_propagates wallet (LikeRequest 0) None
              (world foreign) UnknownOwnerError
              (populateTransactionWitnessesSignature wallet (LikeRequest 0)
                 (world foreign)).2)
    as [Hsend _]; [reflexivity|].
  by rewrite Hsend.
Defined.

(** X8 on the wallet without provider. *)
Lemma offline_wallet_witness :
  sendTransaction offline (LikeRequest 0) noSendParams (world owned) =
    (Err MissingProvider, world owned) /\
  (signMessage offline "hello" (world owned)).1 = Ok "sig:k1:msg:hello".
Proof.
  destruct (offline_wallet offline 0 noSendParams noEstimateParams "hello"
              (world owned))
    as (_ & _ & Hsend & _ & Hmessage); [reflexivity|].
  split; [exact Hsend|]. by rewrite Hmessage.
Defined.

(** ** The scaffolding tool on explicit inputs *)

Import Scaffold ScaffoldToy.

(** A complete non-interactive run. *)
Example runScaffoldCli_contract_only :
  calls (runScaffoldCli (Some "app") (Some "npm") None (Some onlyContract)
           (host [])).2 =
  [Mkdir "app"; Cp "/tool/dist/../templates/nextjs" "app" true;
   Rename "app/gitignore" "app/.gitignore";
   Rename "app/env" "app/.env.local";
   WriteFileSync "app/.env.local" (envFileContents onlyContract);
   RmSync "app/sway-programs/predicate" true;
   RmSync "app/src/pages/predicate.tsx" true;
   RmSync "app/sway-programs/script" true;
   RmSync "app/src/pages/script.tsx" true;
   WriteFileSync "app/sway-programs/Forc.toml" "contract";
   Chdir "app"; ExecSync "npm install"].
Proof. reflexivity. Qed.

(** A directory that cannot be created: the run stops there. *)
Example runScaffoldCli_locked :
  runScaffoldCli (Some "locked") (Some "npm") None (Some onlyContract)
    (host []) =
  (Raised (HostError "EACCES"), mkHost [] 0 [] [Mkdir "locked"]).
Proof. reflexivity. Qed.

(** A template whose [Forc.toml] has no workspace: the run stops with a
    type error once the template is copied and trimmed, before anything
    is written back or installed. *)
Example runScaffoldCli_bare :
  runScaffoldCli (Some "app") (Some "npm") None (Some onlyContract)
    (host ["bare"]) =
  (Raised TypeError,
   mkHost ["bare"; "app"] 0 []
     [Mkdir "app"; Cp "/tool/dist/../templates/nextjs" "app" true;
      Rename "app/gitignore" "app/.gitignore";
      Rename "app/env" "app/.env.local";
      WriteFileSync "app/.env.local" (envFileContents onlyContract);
      RmSync "app/sway-programs/predicate" true;
      RmSync "app/src/pages/predicate.tsx" true;
      RmSync "app/sway-programs/script" true;
      RmSync "app/src/pages/script.tsx" true]).
Proof. reflexivity. Qed.

(** The filter on members of every kind: the included program stays, and
    so do a member named after an inherited property and an array that
    reads as an included program; the program left out, an unknown name,
    a number and a table go. *)
Example filterMembers_kinds :
  filterMembers onlyContract
    [VString "contract"; VString "script"; VString "constructor";
     VString "docs"; VScalar "1"; VArray [VString "contract"]; VTable []] =
  Some [VString "contract"; VString "constructor";
        VArray [VString "contract"]].
Proof. reflexivity. Qed.

(** A table with a key [toString] of its own cannot be turned into a
    property key. *)
Example filterMembers_type_error :
  filterMembers onlyContract
    [VString "contract"; VTable [("toString", VString "contract")]] = None.
Proof. reflexivity. Qed.

(** X9 on the toy documents: the workspace is cut down to the contract,
    and a document without a workspace is a type error. *)
Example processWorkspaceToml_toy :
  processWorkspaceToml "workspace" onlyContract = Done "contract" /\
  processWorkspaceToml "package" onlyContract = Raised TypeError /\
  processWorkspaceToml "" onlyContract = Raised (HostError "parse error").
Proof. by split_and!. Qed.

(** X10 on the selection of the contract alone. *)
Lemma writeEnvFile_contents_witness :
  envFileContents onlyContract =
  "NEXT_PUBLIC_HAS_CONTRACT=true" +:+ newline +:+
  "NEXT_PUBLIC_HAS_PREDICATE=false" +:+ newline +:+
  "NEXT_PUBLIC_HAS_SCRIPT=false".
Proof.
  destruct (writeEnvFile_contents "app/.env.local" onlyContract (host []))
    as [Hcontents _]; [reflexivity|].
  exact Hcontents.
Defined.

(** X11 on a project path that exists. *)
Lemma rejection_touches_nothing_witness :
  calls (runScaffoldCli (Some "app") None None None (host ["app"])).2 = [] /\
  disk (runScaffoldCli (Some "app") None None None (host ["app"])).2 = ["app"].
Proof.
  destruct (rejection_touches_nothing (Some "app") None None None
              (host ["app"])
              "A folder already exists at app. Please choose a different project name.")
    as (Hdisk & Hcalls & _); [reflexivity|].
  exact (conj Hcalls Hdisk).
Defined.

(** X12 on a project path that exists. *)
Lemma existing_folder_refused_witness :
  runScaffoldCli (Some "app") None None None (host ["app"]) =
  (Raised (JsError "A folder already exists at app. Please choose a different project name."),
   host ["app"]).
Proof.
  rewrite (existing_folder_refused "app" None None None (host ["app"]));
    [reflexivity|discriminate|reflexivity].
Defined.

(** X13 on a non-interactive run: the terminal is not used. *)
Lemma scaffold_run_witness :
  terminal (runScaffoldCli (Some "app") (Some "npm") None (Some onlyContract)
              (host [])).2 = 0.
Proof.
  destruct (scaffold_run "app" "npm" None onlyContract (host []))
    as (evs & newToml & _ & _ & Hterminal & _);
    [discriminate|discriminate|reflexivity|reflexivity|].
  exact Hterminal.
Defined.

Lemma toy_paths_differ :
  NoDup (programPaths "app" Contract ++ programPaths "app" Predicate ++
         programPaths "app" Script).
Proof. refine (bool_decide_unpack _ _). vm_compute. exact I. Qed.

(** X14 on a run for the contract alone: the contract stays. *)
Lemma only_excluded_removed_witness :
  exists evs,
    calls (runScaffoldCli (Some "app") (Some "npm") None (Some onlyContract)
             (host [])).2 = evs /\
    RmSync "app/sway-programs/contract" true ∉ evs.
Proof.
  destruct (only_excluded_removed "app" "npm" None onlyContract (host []))
    as (evs & Hcalls & Hkept & _);
    [discriminate|discriminate|reflexivity|reflexivity|exact toy_paths_differ|].
  exists evs. split; [exact Hcalls|].
  apply (Hkept Contract); [reflexivity|]. apply list_elem_of_here.
Defined.

(** X15 on a run that installs. *)
Lemma install_comes_last_witness :
  exists evs,
    calls (runScaffoldCli (Some "app") (Some "npm") None (Some onlyContract)
             (host [])).2 = evs /\
    forall directory, Chdir directory ∈ evs -> directory = "app".
Proof.
  destruct (install_comes_last "app" "npm" None onlyContract (host []))
    as (evs & newToml & Hcalls & _ & Hchdir);
    [discriminate|discriminate|reflexivity|reflexivity|].
  exists evs. split; [exact Hcalls|].
  intros directory Hin. by destruct (Hchdir directory Hin).
Defined.

(** X16 on the toy terminal: three prompts, then the run with the three
    answers. *)
Lemma answers_as_arguments_witness :
  runScaffoldCli None None None None (host []) =
  runScaffoldCli (Some "my-fuel-project") (Some "pnpm") None
    (Some (programsOf ["contract"])) (mkHost [] 3 [] []).
Proof.
  apply (answers_as_arguments None (host []) "my-fuel-project" 1 "pnpm" 2
           ["contract"] 3);
    [reflexivity|discriminate|reflexivity|reflexivity|discriminate|reflexivity].
Defined.
